(** * Gemini-StreamChat: a shallow embedding of [chatbot.py]

    The Streamlit script [chatbot.py] is embedded function by function.
    Conventions of the embedding:

    - a Python [str] is a Rocq [string] holding its UTF-8 encoding, so
      [s.encode("utf-8")] is the identity and every character the script
      or the JSON encoder looks at (quotes, backslash, control characters,
      digits) is a single byte below 128;
    - a Python [bytes] is a [list byte];
    - truthiness ([if x], [x or y], [not x]) is the class [Truthy];
    - exceptions are values of [exn]; code that may raise, read the
      environment or mutate the session runs in the monad [M];
    - what the script cannot decide by itself (environment variables, the
      wall clock, the model provider) is an [external] record of oracles. *)

From Stdlib Require Import Bool Arith ZArith QArith Lia List.
From Stdlib.Strings Require Import Ascii String Byte.
From Stdlib Require Import DecimalString.
Import ListNotations.

Local Open Scope nat_scope.
Local Open Scope string_scope.
Local Open Scope list_scope.

Set Implicit Arguments.

(** ** Python basics *)

Module Py.

(** Truth value testing: [""], [[]] and [None] are false. *)
Class Truthy (A : Type) := truthy : A -> bool.

#[export] Instance Truthy_str : Truthy string :=
  fun s => match s with EmptyString => false | String _ _ => true end.

#[export] Instance Truthy_list {A} : Truthy (list A) :=
  fun l => match l with [] => false | _ :: _ => true end.

(** [Optional[T]] for objects [T] without [__bool__] or [__len__]
    (an [UploadedFile] is such an object): only [None] is false. *)
Definition is_not_None {A} (o : option A) : bool :=
  match o with Some _ => true | None => false end.

(** [Optional[str]]: [None] and [""] are false. *)
#[export] Instance Truthy_opt_str : Truthy (option string) :=
  fun o => match o with Some s => truthy s | None => false end.

(** [x or y] on values of one type. *)
Definition or_ {A} `{Truthy A} (x y : A) : A := if truthy x then x else y.

(** [list.append]. *)
Definition append {A} (l : list A) (x : A) : list A := l ++ [x].

(** [len]. *)
Definition len {A} (l : list A) : nat := List.length l.

(** [str(n)] for a non-negative [int]. *)
Definition str_of_nat (n : nat) : string :=
  NilZero.string_of_uint (Nat.to_uint n).

(** Exceptions deriving from [Exception]: the class name and [str(e)]. *)
Record exn := Exception { exn_class : string; exn_str : string }.

Definition ValueError (msg : string) : exn := Exception "ValueError" msg.
Definition AttributeError (msg : string) : exn := Exception "AttributeError" msg.
Definition IndexError (msg : string) : exn := Exception "IndexError" msg.

End Py.
Import Py.

(** ** CONFIG *)

Definition TEXT_MODEL : string := "gemini-flash-latest".
Definition MULTIMODAL_MODEL : string := "gemini-2.0-flash".
Definition MAX_OUTPUT_TOKENS : nat := 512.
Definition TEMPERATURE : Q := 9 # 10.
Definition TOP_P : Q := 95 # 100.

(** ** Attachments and request parts *)

(** Streamlit's [UploadedFile]: a fresh file object per script run, so the
    single [read()] the script performs returns the whole content. *)
Record UploadedFile := {
  name : string;
  type : string;
  data : list byte
}.

Definition read (f : UploadedFile) : list byte := data f.

(** One element of the [parts] list: a [str], or the dictionary
    [{"mime_type": ..., "data": ...}]. *)
Inductive Part :=
| PText (text : string)
| PBlob (mime_type : string) (data : list byte).

(** [_make_parts_from_inputs], statement by statement. *)
Definition _make_parts_from_inputs
    (text : string) (image_files : list UploadedFile)
    (audio_file : option UploadedFile) : list Part :=
  let parts := [] in
  let parts := if truthy text then append parts (PText text) else parts in
  let parts :=
    if truthy image_files then
      fold_left
        (fun parts f =>
           let bytes_data := read f in
           append parts (PBlob (or_ (type f) "image/png") bytes_data))
        image_files parts
    else parts in
  let parts :=
    match audio_file with
    | Some audio_file =>
        let bytes_data := read audio_file in
        let mime := or_ (type audio_file) "audio/wav" in
        append parts (PBlob mime bytes_data)
    | None => parts
    end in
  parts.

(** ** Time stamps *)

(** The fields of a [datetime] the script prints. *)
Record datetime := {
  year : Z; month : Z; day : Z;
  hour : Z; minute : Z; second : Z
}.

(** Comparison of two [datetime] values, field by field from the year. *)
Definition dt_tuple (d : datetime) : list Z :=
  [year d; month d; day d; hour d; minute d; second d].

Fixpoint lex_leb (a b : list Z) : bool :=
  match a, b with
  | x :: a', y :: b' => (x <? y)%Z || ((x =? y)%Z && lex_leb a' b')
  | [], _ => true
  | _ :: _, [] => false
  end.

Definition dt_leb (d1 d2 : datetime) : bool := lex_leb (dt_tuple d1) (dt_tuple d2).

(** What [datetime.now()] can return as far as [strftime] below is
    concerned: four-digit years and the usual ranges. *)
Definition dt_ok (d : datetime) : Prop :=
  (1000 <= year d <= 9999 /\ 1 <= month d <= 12 /\ 1 <= day d <= 31 /\
   0 <= hour d < 24 /\ 0 <= minute d < 60 /\ 0 <= second d < 60)%Z.

Definition digit (d : Z) : ascii := ascii_of_N (Z.to_N (48 + d mod 10)).

(** [%m], [%d], [%H], [%M], [%S]: two digits, zero padded. *)
Definition zpad2 (n : Z) : string :=
  String (digit (n / 10)) (String (digit n) "").

(** [%Y]: four digits. *)
Definition zpad4 (n : Z) : string :=
  String (digit (n / 1000)) (String (digit (n / 100)) (zpad2 n)).

(** [d.strftime("%Y-%m-%d %H:%M:%S")]. *)
Definition strftime (d : datetime) : string :=
  zpad4 (year d) ++ "-" ++ zpad2 (month d) ++ "-" ++ zpad2 (day d) ++ " " ++
  zpad2 (hour d) ++ ":" ++ zpad2 (minute d) ++ ":" ++ zpad2 (second d).

(** ** The model provider's interface *)

Record GenerationConfig := {
  temperature : Q;
  top_p : Q;
  max_output_tokens : nat
}.

(** [genai.GenerativeModel(model_name=..., system_instruction=...,
    generation_config=...)]. *)
Record GenerativeModel := {
  model_name : string;
  system_instruction : string;
  generation_config : GenerationConfig
}.

(** The argument of [generate_content]: a [str] or a list of parts. *)
Inductive Contents :=
| CStr (s : string)
| CParts (parts : list Part).

(** The provider reads a [str] argument as one text part. *)
Definition parts_of (c : Contents) : list Part :=
  match c with
  | CStr s => [PText s]
  | CParts parts => parts
  end.

(** One call that goes out to the provider. *)
Record Request := {
  req_model : GenerativeModel;
  req_contents : Contents;
  req_api_key : option string
}.

(** The response object, as far as [run_model] inspects it.  An attribute
    that is [None] here is absent from the object (reading it raises
    [AttributeError]).  Reading [response.text] is a computation of the
    provider's library: it raises an exception ([inl]), or it yields a
    [str] or [None] ([inr]; an object without the attribute and one whose
    attribute is [None] read alike through [getattr] with a default). *)
Record ContentPart := { part_text : option string }.
Record Content := { content_parts : option (list ContentPart) }.
Record Candidate := { cand_content : option Content }.
Record Response := {
  resp_text : exn + option string;
  resp_candidates : option (list Candidate);
  resp_str : string                      (* [str(response)] *)
}.

(** ** The outside world and the script's state *)

Record external := {
  environ : string -> option string;     (* [os.environ] *)
  wall_clock : nat -> datetime;          (* the n-th [datetime.now()] *)
  provider : list Request -> Request -> exn + Response
    (* the provider's answer to a request, given the earlier ones *)
}.

(** A chat turn: the dictionary [{"role": ..., "content": ..., "time": ...}]. *)
Record Message := { role : string; content : string; time : string }.

Inductive ui_event :=
| Warning (body : string)
| Toast (body : string)
| DownloadButton (label : string) (data : string) (file_name : string) (mime : string).

Record state := {
  chat : option (list Message);   (* [st.session_state.chat]; [None]: no such key *)
  persona_prompt : option string; (* [st.session_state.persona_prompt] *)
  clock_reads : nat;              (* how often the clock was read *)
  configured_key : option string; (* set by [genai.configure] *)
  calls : list Request;           (* requests sent to the provider, oldest first *)
  screen : list ui_event          (* notices shown, oldest first *)
}.

Definition set_chat (c : option (list Message)) (s : state) : state :=
  {| chat := c; persona_prompt := persona_prompt s; clock_reads := clock_reads s;
     configured_key := configured_key s; calls := calls s; screen := screen s |}.
Definition set_persona_prompt (p : option string) (s : state) : state :=
  {| chat := chat s; persona_prompt := p; clock_reads := clock_reads s;
     configured_key := configured_key s; calls := calls s; screen := screen s |}.
Definition set_clock_reads (n : nat) (s : state) : state :=
  {| chat := chat s; persona_prompt := persona_prompt s; clock_reads := n;
     configured_key := configured_key s; calls := calls s; screen := screen s |}.
Definition set_configured_key (k : option string) (s : state) : state :=
  {| chat := chat s; persona_prompt := persona_prompt s; clock_reads := clock_reads s;
     configured_key := k; calls := calls s; screen := screen s |}.
Definition set_calls (l : list Request) (s : state) : state :=
  {| chat := chat s; persona_prompt := persona_prompt s; clock_reads := clock_reads s;
     configured_key := configured_key s; calls := l; screen := screen s |}.
Definition set_screen (l : list ui_event) (s : state) : state :=
  {| chat := chat s; persona_prompt := persona_prompt s; clock_reads := clock_reads s;
     configured_key := configured_key s; calls := calls s; screen := l |}.

(** ** The monad of the script *)

(** How a piece of the script ends: it returns, it raises an exception
    deriving from [Exception], or it asks for a rerun ([st.rerun()] raises
    a control-flow exception that [except Exception] does not catch). *)
Inductive outcome (A : Type) :=
| Return (a : A)
| Raise (e : exn)
| Rerun.
Arguments Return {A} a.
Arguments Raise {A} e.
Arguments Rerun {A}.

Definition M (A : Type) : Type := state -> outcome A * state.

Definition ret {A} (a : A) : M A := fun s => (Return a, s).

Definition bind {A B} (m : M A) (k : A -> M B) : M B :=
  fun s =>
    match m s with
    | (Return a, s') => k a s'
    | (Raise e, s') => (Raise e, s')
    | (Rerun, s') => (Rerun, s')
    end.

Definition raise {A} (e : exn) : M A := fun s => (Raise e, s).

Definition gets {A} (f : state -> A) : M A := fun s => (Return (f s), s).

Definition modify (f : state -> state) : M unit := fun s => (Return tt, f s).

(** [try: body / except Exception as e: handler e]. *)
Definition try_except {A} (body : M A) (handler : exn -> M A) : M A :=
  fun s =>
    match body s with
    | (Raise e, s') => handler e s'
    | r => r
    end.

(** A computation that may raise but touches no state. *)
Definition lift {A} (r : exn + A) : M A :=
  match r with
  | inl e => raise e
  | inr a => ret a
  end.

Declare Scope script_scope.
Delimit Scope script_scope with script.
Notation "x <- m ;; k" := (bind m (fun x => k))
  (at level 61, m at next level, right associativity) : script_scope.
Notation "m ;; k" := (bind m (fun _ => k))
  (at level 61, right associativity) : script_scope.
Local Open Scope script_scope.

(** ** [str.strip()] *)

Definition nl : string := String (ascii_of_nat 10) "".

(** The characters Python's [str.isspace] accepts, in UTF-8:
    U+0009-000D, U+001C-0020, U+0085, U+00A0, U+1680, U+2000-200A,
    U+2028, U+2029, U+202F, U+205F, U+3000. *)
Definition whitespace : list (list byte) :=
  [ [x09]; [x0a]; [x0b]; [x0c]; [x0d]; [x1c]; [x1d]; [x1e]; [x1f]; [x20];
    [xc2; x85]; [xc2; xa0]; [xe1; x9a; x80];
    [xe2; x80; x80]; [xe2; x80; x81]; [xe2; x80; x82]; [xe2; x80; x83];
    [xe2; x80; x84]; [xe2; x80; x85]; [xe2; x80; x86]; [xe2; x80; x87];
    [xe2; x80; x88]; [xe2; x80; x89]; [xe2; x80; x8a];
    [xe2; x80; xa8]; [xe2; x80; xa9]; [xe2; x80; xaf]; [xe2; x81; x9f];
    [xe3; x80; x80] ].

Fixpoint drop_prefix (p s : list byte) : option (list byte) :=
  match p, s with
  | [], _ => Some s
  | a :: p', b :: s' => if Byte.eqb a b then drop_prefix p' s' else None
  | _ :: _, [] => None
  end.

Fixpoint drop_any (ps : list (list byte)) (s : list byte) : option (list byte) :=
  match ps with
  | [] => None
  | p :: ps' =>
      match drop_prefix p s with
      | Some r => Some r
      | None => drop_any ps' s
      end
  end.

Fixpoint drop_leading (ps : list (list byte)) (fuel : nat) (s : list byte) : list byte :=
  match fuel with
  | O => s
  | S fuel' =>
      match drop_any ps s with
      | Some r => drop_leading ps fuel' r
      | None => s
      end
  end.

Definition strip (s : string) : string :=
  let b := list_byte_of_string s in
  let b := drop_leading whitespace (List.length b) b in
  let b := rev (drop_leading (map (@rev byte) whitespace) (List.length b) (rev b)) in
  string_of_list_byte b.

(** [str.upper()] on the ASCII letters (the roles are ASCII). *)
Definition upper_ascii (c : ascii) : ascii :=
  let n := nat_of_ascii c in
  if (97 <=? n)%nat && (n <=? 122)%nat then ascii_of_nat (n - 32) else c.

Fixpoint upper (s : string) : string :=
  match s with
  | EmptyString => EmptyString
  | String c s' => String (upper_ascii c) (upper s')
  end.

(** ** The script *)

Section Script.

Variable ext : external.

(** *** Primitives *)

(** [os.environ.get(k)]. *)
Definition os_environ_get (k : string) : M (option string) :=
  ret (environ ext k).

(** [datetime.now()]: the next reading of the wall clock. *)
Definition datetime_now : M datetime :=
  fun s => (Return (wall_clock ext (clock_reads s)),
            set_clock_reads (S (clock_reads s)) s).

(** [genai.configure(api_key=k)]. *)
Definition genai_configure (k : option string) : M unit :=
  modify (set_configured_key k).

(** [model.generate_content(contents)]: the one network call. *)
Definition generate_content (model : GenerativeModel) (contents : Contents)
  : M Response :=
  fun s =>
    let req := {| req_model := model; req_contents := contents;
                  req_api_key := configured_key s |} in
    let s' := set_calls (append (calls s) req) s in
    match provider ext (calls s) req with
    | inl e => (Raise e, s')
    | inr r => (Return r, s')
    end.

(** [st.session_state.chat]. *)
Definition session_chat : M (list Message) :=
  fun s =>
    match chat s with
    | Some l => (Return l, s)
    | None => (Raise (AttributeError "st.session_state has no attribute 'chat'"), s)
    end.

(** [st.session_state.persona_prompt]. *)
Definition session_persona_prompt : M string :=
  fun s =>
    match persona_prompt s with
    | Some p => (Return p, s)
    | None =>
        (Raise (AttributeError "st.session_state has no attribute 'persona_prompt'"), s)
    end.

Definition st_show (e : ui_event) : M unit :=
  modify (fun s => set_screen (append (screen s) e) s).

Definition st_warning (body : string) : M unit := st_show (Warning body).
Definition st_toast (body : string) : M unit := st_show (Toast body).

(** [st.rerun()]. *)
Definition st_rerun : M unit := fun s => (Rerun, s).

(** *** HELPERS *)

Definition _require_key : M unit :=
  api_key <- os_environ_get "GOOGLE_API_KEY" ;;
  if negb (truthy api_key) then
    raise (ValueError
      "Missing GOOGLE_API_KEY environment variable. Set it in your terminal.")
  else genai_configure api_key.

(** [_format_history_for_download]: every message has its ["time"] key,
    so [h.get("time", "")] is that time. *)
Definition _format_history_for_download (history : list Message) : string :=
  let lines :=
    fold_left
      (fun lines h =>
         let t := time h in
         append lines ("[" ++ t ++ "] " ++ upper (role h) ++ ": " ++ content h)%string)
      history [] in
  String.concat nl lines.

(** *** [run_model] *)

(** [l[0]]. *)
Definition item0 {A} (l : list A) : exn + A :=
  match l with
  | x :: _ => inr x
  | [] => inl (IndexError "list index out of range")
  end.

(** [o.attr]. *)
Definition attr {A} (attr_name : string) (o : option A) : exn + A :=
  match o with
  | Some a => inr a
  | None => inl (AttributeError attr_name)
  end.

Definition and_then {A B} (r : exn + A) (k : A -> exn + B) : exn + B :=
  match r with
  | inl e => inl e
  | inr a => k a
  end.

(** [response.candidates[0].content.parts[0].text]. *)
Definition first_candidate_text (response : Response) : exn + string :=
  and_then (attr "candidates" (resp_candidates response)) (fun cands =>
  and_then (item0 cands) (fun cand =>
  and_then (attr "content" (cand_content cand)) (fun c =>
  and_then (attr "parts" (content_parts c)) (fun ps =>
  and_then (item0 ps) (fun p =>
  attr "text" (part_text p)))))).

(** [getattr(o, name, None)]: the default stands in when the read raises
    [AttributeError]; any other exception of the read propagates. *)
Definition is_AttributeError (e : exn) : bool :=
  String.eqb (exn_class e) "AttributeError".

Definition getattr_or_None {A} (read : exn + option A) : M (option A) :=
  match read with
  | inr v => ret v
  | inl e => if is_AttributeError e then ret None else raise e
  end.

Definition run_model (text : string) (images_files : list UploadedFile)
    (audio_file : option UploadedFile) : M string :=
  _require_key ;;
  let use_multimodal :=
    (truthy images_files && (0 <? len images_files)%nat)
    || is_not_None audio_file in
  let model_name := if use_multimodal then MULTIMODAL_MODEL else TEXT_MODEL in
  persona <- session_persona_prompt ;;
  let model :=
    {| model_name := model_name;
       system_instruction := persona;
       generation_config :=
         {| temperature := TEMPERATURE; top_p := TOP_P;
            max_output_tokens := MAX_OUTPUT_TOKENS |} |} in
  response <-
    (if use_multimodal then
       let parts := _make_parts_from_inputs text images_files audio_file in
       generate_content model (CParts parts)
     else
       generate_content model (CStr (or_ text "Say hello!"))) ;;
  text_out <- getattr_or_None (resp_text response) ;;
  let fallback :=
    try_except (lift (first_candidate_text response))
               (fun _ => ret (resp_str response)) in
  match text_out with
  | Some t => if negb (truthy t) then fallback else ret t
  | None => fallback
  end.

End Script.

(** ** JSON *)

Module Json.

(** A JSON document.  A number keeps its lexeme. *)
#[local] Set Warnings "-register-all".
Inductive json :=
| JNull
| JBool (b : bool)
| JNum (lexeme : string)
| JStr (s : string)
| JArr (items : list json)
| JObj (members : list (string * json)).

Definition dquote : ascii := "034"%char.
Definition backslash : ascii := "092"%char.

(** *** [json.dumps(v, ensure_ascii=False, indent=2)] *)

Definition hex_digit (n : N) : ascii :=
  if (n <? 10)%N then ascii_of_N (48 + n) else ascii_of_N (87 + n).

(** The encoder's escape table: quote, backslash and the control
    characters; with [ensure_ascii=False] everything else, bytes of
    non-ASCII characters included, is copied. *)
Definition escape_char (c : ascii) : string :=
  let n := N_of_ascii c in
  if (n =? 34)%N then String backslash (String dquote "")
  else if (n =? 92)%N then String backslash (String backslash "")
  else if (n =? 10)%N then String backslash "n"
  else if (n =? 13)%N then String backslash "r"
  else if (n =? 9)%N then String backslash "t"
  else if (n =? 12)%N then String backslash "f"
  else if (n =? 8)%N then String backslash "b"
  else if (n <? 32)%N then
    String backslash
      (String "u" (String "0" (String "0"
         (String (hex_digit (n / 16)) (String (hex_digit (n mod 16)) "")))))
  else String c "".

Fixpoint escape (s : string) : string :=
  match s with
  | EmptyString => EmptyString
  | String c s' => escape_char c ++ escape s'
  end.

Definition encode_basestring (s : string) : string :=
  String dquote (escape s ++ String dquote "").

(** ["\n"] followed by [level] times the two-space indent. *)
Fixpoint indent (level : nat) : string :=
  match level with
  | O => EmptyString
  | S l => "  " ++ indent l
  end.

Definition newline_indent (level : nat) : string := nl ++ indent level.

Fixpoint encode (level : nat) (v : json) : string :=
  match v with
  | JNull => "null"
  | JBool true => "true"
  | JBool false => "false"
  | JNum lexeme => lexeme
  | JStr s => encode_basestring s
  | JArr [] => "[]"
  | JArr items =>
      "[" ++ newline_indent (S level)
      ++ String.concat ("," ++ newline_indent (S level))
           (map (encode (S level)) items)
      ++ newline_indent level ++ "]"
  | JObj [] => "{}"
  | JObj members =>
      "{" ++ newline_indent (S level)
      ++ String.concat ("," ++ newline_indent (S level))
           (map (fun kv => encode_basestring (fst kv) ++ ": "
                           ++ encode (S level) (snd kv)) members)
      ++ newline_indent level ++ "}"
  end%string.

Definition dumps (v : json) : string := encode 0 v.

(** *** [json.loads]

    The decoder works on the UTF-8 text.  A document whose strings name
    a lone surrogate ([\ud800] without its partner) has no UTF-8 form
    and is refused; so are the constants [NaN] and [Infinity]. *)

Definition is_ws (c : ascii) : bool :=
  let n := N_of_ascii c in
  ((n =? 32) || (n =? 9) || (n =? 10) || (n =? 13))%N.

Fixpoint skip_ws (s : string) : string :=
  match s with
  | EmptyString => s
  | String c r => if is_ws c then skip_ws r else s
  end.

Definition hex_val (c : ascii) : option N :=
  let n := N_of_ascii c in
  if ((48 <=? n) && (n <=? 57))%N then Some (n - 48)%N
  else if ((97 <=? n) && (n <=? 102))%N then Some (n - 87)%N
  else if ((65 <=? n) && (n <=? 70))%N then Some (n - 55)%N
  else None.

Definition hex4 (a b c d : ascii) : option N :=
  match hex_val a, hex_val b, hex_val c, hex_val d with
  | Some x, Some y, Some z, Some w => Some (((x * 16 + y) * 16 + z) * 16 + w)%N
  | _, _, _, _ => None
  end.

(** The UTF-8 form of a code point. *)
Definition utf8 (cp : N) : string :=
  (if cp <? 128 then String (ascii_of_N cp) ""
   else if cp <? 2048 then
     String (ascii_of_N (192 + cp / 64))
       (String (ascii_of_N (128 + cp mod 64)) "")
   else if cp <? 65536 then
     String (ascii_of_N (224 + cp / 4096))
       (String (ascii_of_N (128 + (cp / 64) mod 64))
          (String (ascii_of_N (128 + cp mod 64)) ""))
   else
     String (ascii_of_N (240 + cp / 262144))
       (String (ascii_of_N (128 + (cp / 4096) mod 64))
          (String (ascii_of_N (128 + (cp / 64) mod 64))
             (String (ascii_of_N (128 + cp mod 64)) ""))))%N.

Definition is_high_surrogate (cp : N) : bool := ((55296 <=? cp) && (cp <=? 56319))%N.
Definition is_low_surrogate (cp : N) : bool := ((56320 <=? cp) && (cp <=? 57343))%N.

(** The one-letter escapes. *)
Definition unescape (e : ascii) : option ascii :=
  let n := N_of_ascii e in
  if (n =? 34)%N then Some dquote
  else if (n =? 92)%N then Some backslash
  else if (n =? 47)%N then Some "/"%char
  else if (n =? 98)%N then Some (ascii_of_N 8)
  else if (n =? 102)%N then Some (ascii_of_N 12)
  else if (n =? 110)%N then Some (ascii_of_N 10)
  else if (n =? 114)%N then Some (ascii_of_N 13)
  else if (n =? 116)%N then Some (ascii_of_N 9)
  else None.

Definition prepend (p : string) (o : option (string * string))
  : option (string * string) :=
  match o with
  | Some (t, rest) => Some (p ++ t, rest)%string
  | None => None
  end.

(** The body of a string, after its opening quote (strict mode: a raw
    control character is an error).  Returns the decoded string and the
    text after the closing quote. *)
Fixpoint scanstring (s : string) : option (string * string) :=
  match s with
  | EmptyString => None
  | String c r =>
      if Ascii.eqb c dquote then Some (EmptyString, r)
      else if Ascii.eqb c backslash then
        match r with
        | EmptyString => None
        | String e r1 =>
            if Ascii.eqb e "u" then
              match r1 with
              | String h1 (String h2 (String h3 (String h4 r2))) =>
                  match hex4 h1 h2 h3 h4 with
                  | None => None
                  | Some cp =>
                      if is_high_surrogate cp then
                        match r2 with
                        | String b (String u (String l1 (String l2
                            (String l3 (String l4 r3))))) =>
                            if Ascii.eqb b backslash && Ascii.eqb u "u" then
                              match hex4 l1 l2 l3 l4 with
                              | Some lo =>
                                  if is_low_surrogate lo then
                                    prepend
                                      (utf8 (65536 + (cp - 55296) * 1024
                                             + (lo - 56320))%N)
                                      (scanstring r3)
                                  else None
                              | None => None
                              end
                            else None
                        | _ => None
                        end
                      else if is_low_surrogate cp then None
                      else prepend (utf8 cp) (scanstring r2)
                  end
              | _ => None
              end
            else
              match unescape e with
              | Some ch => prepend (String ch "") (scanstring r1)
              | None => None
              end
        end
      else if (N_of_ascii c <? 32)%N then None
      else prepend (String c "") (scanstring r)
  end.

(** Numbers: an optional minus, an integer part without leading zeros,
    an optional fraction and an optional exponent. *)
Definition is_digit (c : ascii) : bool :=
  let n := N_of_ascii c in ((48 <=? n) && (n <=? 57))%N.

Fixpoint digits (s : string) : string * string :=
  match s with
  | EmptyString => (EmptyString, s)
  | String c r =>
      if is_digit c then let (ds, rest) := digits r in (String c ds, rest)
      else (EmptyString, s)
  end.

Definition scan_int (s : string) : option (string * string) :=
  match s with
  | EmptyString => None
  | String c r =>
      if Ascii.eqb c "0" then Some ("0", r)
      else if is_digit c then let (ds, rest) := digits r in Some (String c ds, rest)
      else None
  end.

Definition scan_frac (s : string) : string * string :=
  match s with
  | String c r =>
      if Ascii.eqb c "." then
        match digits r with
        | (EmptyString, _) => (EmptyString, s)
        | (ds, rest) => (String c ds, rest)
        end
      else (EmptyString, s)
  | EmptyString => (EmptyString, s)
  end.

Definition scan_exp (s : string) : string * string :=
  match s with
  | String c r =>
      if Ascii.eqb c "e" || Ascii.eqb c "E" then
        let (sign, r1) :=
          match r with
          | String g r1 =>
              if Ascii.eqb g "+" || Ascii.eqb g "-" then (String g "", r1)
              else (EmptyString, r)
          | EmptyString => (EmptyString, r)
          end in
        match digits r1 with
        | (EmptyString, _) => (EmptyString, s)
        | (ds, rest) => (String c (sign ++ ds), rest)
        end
      else (EmptyString, s)
  | EmptyString => (EmptyString, s)
  end.

Definition scan_number (s : string) : option (string * string) :=
  let (minus, s1) :=
    match s with
    | String c r => if Ascii.eqb c "-" then (String c "", r) else (EmptyString, s)
    | EmptyString => (EmptyString, s)
    end in
  match scan_int s1 with
  | None => None
  | Some (i, s2) =>
      let (f, s3) := scan_frac s2 in
      let (e, s4) := scan_exp s3 in
      Some (minus ++ i ++ f ++ e, s4)%string
  end.

(** [p] at the head of [s]: what follows it. *)
Fixpoint after (p s : string) : option string :=
  match p, s with
  | EmptyString, _ => Some s
  | String a p', String b s' => if Ascii.eqb a b then after p' s' else None
  | String _ _, EmptyString => None
  end.

Definition with_rest {A B} (f : A -> B) (o : option (A * string))
  : option (B * string) :=
  match o with
  | Some (a, rest) => Some (f a, rest)
  | None => None
  end.

(** A value at the head of [s]; the elements of an array after its
    bracket; the members of an object from the first key.  Each call
    spends one unit of [fuel]. *)
Fixpoint parse_value (fuel : nat) (s : string) {struct fuel}
  : option (json * string) :=
  match fuel with
  | O => None
  | S fuel' =>
      match s with
      | EmptyString => None
      | String c r =>
          if Ascii.eqb c dquote then with_rest JStr (scanstring r)
          else if Ascii.eqb c "[" then
            match skip_ws r with
            | EmptyString => None
            | String c1 r1 as body =>
                if Ascii.eqb c1 "]" then Some (JArr [], r1)
                else with_rest JArr (parse_items fuel' body)
            end
          else if Ascii.eqb c "{" then
            match skip_ws r with
            | EmptyString => None
            | String c1 r1 as body =>
                if Ascii.eqb c1 "}" then Some (JObj [], r1)
                else with_rest JObj (parse_members fuel' body)
            end
          else
            match after "null" s, after "true" s, after "false" s with
            | Some rest, _, _ => Some (JNull, rest)
            | None, Some rest, _ => Some (JBool true, rest)
            | None, None, Some rest => Some (JBool false, rest)
            | None, None, None => with_rest JNum (scan_number s)
            end
      end
  end

with parse_items (fuel : nat) (s : string) {struct fuel}
  : option (list json * string) :=
  match fuel with
  | O => None
  | S fuel' =>
      match parse_value fuel' s with
      | None => None
      | Some (v, rest) =>
          match skip_ws rest with
          | EmptyString => None
          | String c r =>
              if Ascii.eqb c "," then
                with_rest (cons v) (parse_items fuel' (skip_ws r))
              else if Ascii.eqb c "]" then Some ([v], r)
              else None
          end
      end
  end

with parse_members (fuel : nat) (s : string) {struct fuel}
  : option (list (string * json) * string) :=
  match fuel with
  | O => None
  | S fuel' =>
      match s with
      | EmptyString => None
      | String q r =>
          if Ascii.eqb q dquote then
            match scanstring r with
            | None => None
            | Some (k, rest) =>
                match skip_ws rest with
                | EmptyString => None
                | String colon r1 =>
                    if Ascii.eqb colon ":" then
                      match parse_value fuel' (skip_ws r1) with
                      | None => None
                      | Some (v, rest1) =>
                          match skip_ws rest1 with
                          | EmptyString => None
                          | String c r2 =>
                              if Ascii.eqb c "," then
                                with_rest (cons (k, v))
                                  (parse_members fuel' (skip_ws r2))
                              else if Ascii.eqb c "}" then Some ([(k, v)], r2)
                              else None
                          end
                      end
                    else None
                end
            end
          else None
      end
  end.

(** [json.loads(s)]: one value, white space around it, nothing else.
    The fuel is the length of the text. *)
Definition loads (s : string) : option json :=
  match parse_value (String.length s) (skip_ws s) with
  | Some (v, rest) =>
      match skip_ws rest with
      | EmptyString => Some v
      | String _ _ => None
      end
  | None => None
  end.

(** [d[k]] on the dictionary built from [members]: the last binding of
    a repeated key wins. *)
Fixpoint lookup (k : string) (members : list (string * json)) : option json :=
  match members with
  | [] => None
  | (k', v) :: ms =>
      match lookup k ms with
      | Some v' => Some v'
      | None => if String.eqb k' k then Some v else None
      end
  end.

End Json.
Import Json.

(** ** The app *)

(** The JSON document [json.dumps] sees for the chat: a list of
    dictionaries with the keys in insertion order. *)
Definition message_json (m : Message) : Json.json :=
  Json.JObj [("role", Json.JStr (role m));
             ("content", Json.JStr (content m));
             ("time", Json.JStr (time m))].

Definition chat_json (history : list Message) : Json.json :=
  Json.JArr (map message_json history).

(** What one run of the script reads from its widgets. *)
Record widgets := {
  system_prompt : string;            (* the text area of the sidebar *)
  mic_enabled : bool;
  clear_clicked : bool;              (* "Clear chat history" *)
  user_text : string;
  send_clicked : bool;
  images : list UploadedFile;
  audio_upload : option UploadedFile;
  audio_input : option UploadedFile; (* the recorder, when it is shown *)
  download_txt_clicked : bool;
  download_json_clicked : bool
}.

Definition picture_emoji : string :=
  string_of_list_byte [xf0; x9f; x96; xbc; xef; xb8; x8f].
Definition microphone_emoji : string :=
  string_of_list_byte [xf0; x9f; x8e; x99; xef; xb8; x8f].

Section App.

Variable ext : external.
Variable w : widgets.

Definition mic_audio : option UploadedFile :=
  if mic_enabled w then audio_input w else None.

(** The sidebar's button, the session state and the live persona. *)
Definition prelude : M unit :=
  (if clear_clicked w then
     modify (set_chat None) ;; st_toast "History cleared."
   else ret tt) ;;
  present <- gets chat ;;
  (if negb (is_not_None present) then modify (set_chat (Some [])) else ret tt) ;;
  modify (set_persona_prompt (Some (system_prompt w))).

(** [st.session_state.chat.append(m ...)]: the list is looked up, the
    message is built by [mk], then appended in place. *)
Definition chat_append (mk : M Message) : M unit :=
  l <- session_chat ;;
  m <- mk ;;
  modify (set_chat (Some (append l m))).

(** SEND HANDLER *)
Definition send_handler : M unit :=
  if send_clicked w then
    if negb (truthy (user_text w) || truthy (images w)
             || is_not_None (audio_upload w) || is_not_None mic_audio) then
      st_warning "Type a message or attach media before sending."
    else
      now <- datetime_now ext ;;
      let stamp := strftime now in
      let preview := or_ (user_text w) "" in
      let preview :=
        if truthy (images w) then
          (preview ++ nl ++ nl ++ picture_emoji ++ " "
           ++ str_of_nat (len (images w)) ++ " image(s) attached")%string
        else preview in
      let preview :=
        if is_not_None (audio_upload w) || is_not_None mic_audio then
          (preview ++ nl ++ nl ++ microphone_emoji ++ " audio attached")%string
        else preview in
      chat_append
        (ret {| role := "user"; content := strip preview; time := stamp |}) ;;
      answer <-
        try_except
          (let audio_source :=
             if is_not_None mic_audio then mic_audio else audio_upload w in
           run_model ext (user_text w) (images w) audio_source)
          (fun e => ret ("Error: " ++ exn_str e)%string) ;;
      chat_append
        (now <- datetime_now ext ;;
         ret {| role := "assistant"; content := answer; time := strftime now |}) ;;
      st_rerun
  else ret tt.

(** TOOLBAR: the two download buttons; [.encode("utf-8")] is the identity
    on the UTF-8 text.  (Speech output reads the chat and changes nothing.) *)
Definition toolbar : M unit :=
  (if download_txt_clicked w then
     history <- session_chat ;;
     let txt := _format_history_for_download history in
     st_show (DownloadButton "Save Chat (.txt)" txt "chat_history.txt" "text/plain")
   else ret tt) ;;
  (if download_json_clicked w then
     history <- session_chat ;;
     let js := Json.dumps (chat_json history) in
     st_show (DownloadButton "Save Chat (.json)" js "chat_history.json"
                "application/json")
   else ret tt).

(** One run of the script, top to bottom. *)
Definition script : M unit :=
  prelude ;; send_handler ;; toolbar.

End App.

(** The Message Store: the chat of the session, empty before the first run. *)
Definition store (s : state) : list Message :=
  match chat s with
  | Some l => l
  | None => []
  end.

(** The store a run of the script starts its send handler with. *)
Definition store_entering (w : widgets) (s : state) : list Message :=
  if clear_clicked w then [] else store s.

(** ** The specification's vocabulary

    These definitions follow the words of the specification; the theorems
    below compare them with the script. *)

(** An image attachment as a (mimeType, bytes) pair. *)
Definition image_part (f : UploadedFile) : Part :=
  PBlob (match type f with EmptyString => "image/png" | t => t end) (data f).

(** The audio attachment as a (mimeType, bytes) pair. *)
Definition audio_part (f : UploadedFile) : Part :=
  PBlob (match type f with EmptyString => "audio/wav" | t => t end) (data f).

Definition fallback_greeting : string := "Say hello!".

(** "Any attachment is present". *)
Definition has_attachment (image_files : list UploadedFile)
    (audio_file : option UploadedFile) : bool :=
  match image_files, audio_file with
  | [], None => false
  | _, _ => true
  end.

(** The request one call of [run_model] sends when the key and the persona
    prompt are there. *)
Definition request_of (key persona text : string)
    (image_files : list UploadedFile) (audio_file : option UploadedFile) : Request :=
  {| req_model :=
       {| model_name :=
            if has_attachment image_files audio_file
            then MULTIMODAL_MODEL else TEXT_MODEL;
          system_instruction := persona;
          generation_config :=
            {| temperature := TEMPERATURE; top_p := TOP_P;
               max_output_tokens := MAX_OUTPUT_TOKENS |} |};
     req_contents :=
       if has_attachment image_files audio_file
       then CParts (_make_parts_from_inputs text image_files audio_file)
       else CStr (match text with EmptyString => fallback_greeting | t => t end);
     req_api_key := Some key |}.

(** The text of the first candidate's first content part, when the
    response has that shape. *)
Definition first_part_text (r : Response) : option string :=
  match resp_candidates r with
  | Some ({| cand_content :=
               Some {| content_parts :=
                         Some ({| part_text := Some t |} :: _) |} |} :: _) => Some t
  | _ => None
  end.

(** The three-tier decoder of the response: the direct text when it is
    not empty, else the text of the first part of the first candidate,
    else the printed response. *)
Definition three_tier_text (r : Response) : string :=
  match resp_text r with
  | inr (Some (String c t)) => String c t
  | _ =>
      match first_part_text r with
      | Some t => t
      | None => resp_str r
      end
  end.

(** How the extraction of [run_model] ends on a response: an exception of
    the read of [response.text] other than [AttributeError] leaves the
    function. *)
Definition extraction_outcome (r : Response) : outcome string :=
  match resp_text r with
  | inl e => if is_AttributeError e then Return (three_tier_text r) else Raise e
  | inr _ => Return (three_tier_text r)
  end.

(** The response has no direct text to offer: the attribute is absent,
    [None] or empty. *)
Definition no_direct_text (r : Response) : Prop :=
  resp_text r = inr None \/ resp_text r = inr (Some "") \/
  exists e, resp_text r = inl e /\ exn_class e = "AttributeError".

Definition missing_key_error : exn :=
  ValueError "Missing GOOGLE_API_KEY environment variable. Set it in your terminal.".

(** The preview stored as the user's turn, before [strip]. *)
Definition preview_text (w : widgets) : string :=
  (user_text w
   ++ (match images w with
       | [] => ""
       | _ :: _ => nl ++ nl ++ picture_emoji ++ " "
                   ++ str_of_nat (List.length (images w)) ++ " image(s) attached"
       end)
   ++ (match audio_upload w, mic_audio w with
       | None, None => ""
       | _, _ => nl ++ nl ++ microphone_emoji ++ " audio attached"
       end))%string.

(** The send guard: some text or some attachment. *)
Definition sendable (w : widgets) : Prop :=
  user_text w <> "" \/ images w <> [] \/ audio_upload w <> None \/ mic_audio w <> None.

(** The audio clip that goes into the request. *)
Definition audio_source (w : widgets) : option UploadedFile :=
  match mic_audio w with
  | Some m => Some m
  | None => audio_upload w
  end.

(** The user's turn of a send that starts in state [s]. *)
Definition user_turn (ext : external) (w : widgets) (s : state) : Message :=
  {| role := "user"; content := strip (preview_text w);
     time := strftime (wall_clock ext (clock_reads s)) |}.

(** AwaitingResponse: the user's turn is appended, the model is about to
    be called. *)
Definition awaiting_response (ext : external) (w : widgets) (s : state) : state :=
  set_chat (Some (store s ++ [user_turn ext w s]))
           (set_clock_reads (S (clock_reads s)) s).

(** The content of the assistant's turn for an outcome of [run_model]. *)
Definition answer_of (r : outcome string) : string :=
  match r with
  | Return t => t
  | Raise e => ("Error: " ++ exn_str e)%string
  | Rerun => ""
  end.

(** The assistant's turn, when [run_model] ended with [r] in state [s1]. *)
Definition assistant_turn (ext : external) (r : outcome string) (s1 : state) : Message :=
  {| role := "assistant"; content := answer_of r;
     time := strftime (wall_clock ext (clock_reads s1)) |}.

(** Reading the export back: the dictionary of one record must have
    exactly the keys role, content and time, each with a string. *)
Definition record_of_json (v : Json.json) : option Message :=
  match v with
  | Json.JObj members =>
      if forallb (fun kv => existsb (String.eqb (fst kv)) ["role"; "content"; "time"])
                 members
      then
        match Json.lookup "role" members, Json.lookup "content" members,
              Json.lookup "time" members with
        | Some (Json.JStr r), Some (Json.JStr c), Some (Json.JStr t) =>
            Some {| role := r; content := c; time := t |}
        | _, _, _ => None
        end
      else None
  | _ => None
  end.

Fixpoint records_of_json (vs : list Json.json) : option (list Message) :=
  match vs with
  | [] => Some []
  | v :: vs' =>
      match record_of_json v, records_of_json vs' with
      | Some m, Some ms => Some (m :: ms)
      | _, _ => None
      end
  end.

(** The JSON export of a store, and the records parsed back from it. *)
Definition export_json (history : list Message) : string :=
  Json.dumps (chat_json history).

Definition parse_export (js : string) : option (list Message) :=
  match Json.loads js with
  | Some (Json.JArr vs) => records_of_json vs
  | _ => None
  end.

(** [run_model], started in [s], sends [req] to the provider, and only that. *)
Definition sends (ext : external) (text : string) (image_files : list UploadedFile)
    (audio_file : option UploadedFile) (s : state) (req : Request) : Prop :=
  calls (snd (run_model ext text image_files audio_file s)) = calls s ++ [req].

(** "Given empty text and one image, the parts are the fallback greeting
    and the image", as the specification words it. *)
Definition greeting_precedes_image (ext : external) (img : UploadedFile) (s : state) : Prop :=
  exists req, sends ext "" [img] None s req /\
    parts_of (req_contents req) = [PText fallback_greeting; image_part img].

(** "Exactly one user Message and exactly one assistant Message are
    appended, in that order, with non-decreasing timestamps", as the
    specification words it. *)
Definition paired_turns_appended (ext : external) (w : widgets) (s : state) : Prop :=
  exists u a s',
    send_handler ext w s = (Rerun, s') /\
    chat s' = Some (store s ++ [u; a]) /\
    role u = "user" /\ role a = "assistant" /\
    String.leb (time u) (time a) = true.

(** The same widgets with no uploaded audio file. *)
Definition without_upload (w : widgets) : widgets :=
  {| system_prompt := system_prompt w; mic_enabled := mic_enabled w;
     clear_clicked := clear_clicked w; user_text := user_text w;
     send_clicked := send_clicked w; images := images w;
     audio_upload := None; audio_input := audio_input w;
     download_txt_clicked := download_txt_clicked w;
     download_json_clicked := download_json_clicked w |}.

(** One member of an object whose values are strings, as the encoder
    prints it. *)
Definition member_text (kv : string * string) : string :=
  (encode_basestring (fst kv) ++ ": " ++ encode_basestring (snd kv))%string.

(** The keys and values of the dictionary of a message. *)
Definition message_members (m : Message) : list (string * string) :=
  [("role", role m); ("content", content m); ("time", time m)].

(** The elements of the exported array, as the encoder prints them. *)
Definition items_text (ms : list Message) : string :=
  String.concat ("," ++ newline_indent 1) (map (encode 1) (map message_json ms)).

(** ** Sessions

    A session is a sequence of runs of the script, one per event of the
    page (a click, an upload, the rerun a send asks for), each with the
    widget values of that moment. *)

(** The store holds whole exchanges: a user turn, then the assistant's. *)
Fixpoint paired (l : list Message) : Prop :=
  match l with
  | [] => True
  | u :: a :: l' => role u = "user" /\ role a = "assistant" /\ paired l'
  | [_] => False
  end.

(** The state after the runs [ws], in that order. *)
Fixpoint run_session (ext : external) (ws : list widgets) (s : state) : state :=
  match ws with
  | [] => s
  | w :: ws' => run_session ext ws' (snd (script ext w s))
  end.

(** A session nobody has opened yet: nothing in [st.session_state]. *)
Definition new_session : state :=
  {| chat := None; persona_prompt := None; clock_reads := 0;
     configured_key := None; calls := []; screen := [] |}.

(** A text of [n] spaces. *)
Fixpoint spaces (n : nat) : string :=
  match n with
  | O => EmptyString
  | S n' => String " " (spaces n')
  end.

(** ** Exports *)

(** One line of the plain-text export. *)
Definition history_line (h : Message) : string :=
  ("[" ++ time h ++ "] " ++ upper (role h) ++ ": " ++ content h)%string.

(** Two stores with one plain-text export: a reply of two lines, and the
    same text as two turns. *)
Definition one_turn_two_lines : list Message :=
  [ {| role := "user"; time := "2026-11-04 09:05:00";
       content := ("first" ++ nl ++ "[2026-11-04 09:05:00] USER: second")%string |} ].

Definition two_turns : list Message :=
  [ {| role := "user"; time := "2026-11-04 09:05:00"; content := "first" |};
    {| role := "user"; time := "2026-11-04 09:05:00"; content := "second" |} ].

(** ** [_encode_download_bytes] *)

Definition b64_alphabet : string :=
  "ABCDEFGHIJKLMNOPQRSTUVWXYZabcdefghijklmnopqrstuvwxyz0123456789+/".

(** The character of a six-bit value. *)
Definition b64_char (i : N) : ascii :=
  match String.get (N.to_nat i) b64_alphabet with
  | Some c => c
  | None => "="%char
  end.

(** [base64.b64encode]: three bytes give four characters; one or two
    bytes left over are padded with [=]. *)
Fixpoint b64encode (data : list byte) : string :=
  match data with
  | [] => EmptyString
  | [a] =>
      let x := Byte.to_N a in
      String (b64_char (x / 4)) (String (b64_char (x mod 4 * 16)) "==")
  | [a; b] =>
      let x := Byte.to_N a in
      let y := Byte.to_N b in
      String (b64_char (x / 4))
        (String (b64_char (x mod 4 * 16 + y / 16))
           (String (b64_char (y mod 16 * 4)) "="))
  | a :: b :: c :: rest =>
      let x := Byte.to_N a in
      let y := Byte.to_N b in
      let z := Byte.to_N c in
      String (b64_char (x / 4))
        (String (b64_char (x mod 4 * 16 + y / 16))
           (String (b64_char (y mod 16 * 4 + z / 64))
              (String (b64_char (z mod 64)) (b64encode rest))))
  end%N.

(** [_encode_download_bytes]: the text of base64 is ASCII, so decoding it
    as UTF-8 changes nothing. *)
Definition _encode_download_bytes (name : string) (data : list byte) : string :=
  let b64 := b64encode data in
  ("data:application/octet-stream;base64," ++ b64)%string.

(** Reading base64 back (RFC 4648, padding required). *)
Fixpoint b64_find (c : ascii) (alphabet : string) (i : N) : option N :=
  match alphabet with
  | EmptyString => None
  | String a rest => if Ascii.eqb a c then Some i else b64_find c rest (i + 1)%N
  end.

Definition b64_index (c : ascii) : option N := b64_find c b64_alphabet 0%N.

Definition byte_of (n : N) : option byte := Byte.of_N n.

Fixpoint b64decode (s : string) : option (list byte) :=
  match s with
  | EmptyString => Some []
  | String c1 (String c2 (String c3 (String c4 rest))) =>
      match b64_index c1, b64_index c2 with
      | Some i1, Some i2 =>
          match byte_of (i1 * 4 + i2 / 16)%N with
          | None => None
          | Some a =>
              if Ascii.eqb c3 "=" then
                match rest with
                | EmptyString => if Ascii.eqb c4 "=" then Some [a] else None
                | String _ _ => None
                end
              else
                match b64_index c3 with
                | None => None
                | Some i3 =>
                    match byte_of (i2 mod 16 * 16 + i3 / 4)%N with
                    | None => None
                    | Some b =>
                        if Ascii.eqb c4 "=" then
                          match rest with
                          | EmptyString => Some [a; b]
                          | String _ _ => None
                          end
                        else
                          match b64_index c4 with
                          | None => None
                          | Some i4 =>
                              match byte_of (i3 mod 4 * 64 + i4)%N, b64decode rest with
                              | Some c, Some bytes => Some (a :: b :: c :: bytes)
                              | _, _ => None
                              end
                          end
                    end
                end
          end
      | _, _ => None
      end
  | _ => None
  end.

(** The payload of a [data:] URI made by [_encode_download_bytes]. *)
Definition data_uri_payload (uri : string) : option string :=
  Json.after "data:application/octet-stream;base64," uri.

(** ** [_render_message] *)

(** The markup [_render_message] hands to [st.markdown]; every message of
    the chat has its ["time"] key, so [msg.get("time")] is that time. *)
Definition _render_message (msg : Message) : string :=
  let role := role msg in
  let content := content msg in
  let time := time msg in
  let meta :=
    if truthy time then ("<div class='small'>" ++ time ++ "</div>")%string
    else EmptyString in
  let klass := if String.eqb role "user" then "user" else "bot" in
  ("<div class='bubble " ++ klass ++ "'>" ++ content ++ meta ++ "</div>")%string.

(** ** Speech *)

(** What the speech column shows. *)
Inductive speech :=
| Audio (mp3 : list byte)
| Info (body : string).

(** [next((m for m in reversed(chat) if m["role"] == "assistant"), None)]. *)
Definition last_assistant (history : list Message) : option Message :=
  find (fun m => String.eqb (role m) "assistant") (rev history).

Section Speech.

(** Whether the import of gTTS succeeded, and what synthesis gives for a
    text: the MP3 bytes, or an exception. *)
Variable GTTS_AVAILABLE : bool.
Variable gTTS : string -> exn + list byte.

Definition _tts_to_bytes (text : string) : option (list byte) :=
  if negb GTTS_AVAILABLE then None
  else
    match gTTS text with
    | inr mp3 => Some mp3
    | inl _ => None
    end.

(** The third column of the toolbar; [toggled] is the value of the toggle,
    which is only looked at when there is a chat and gTTS is there. *)
Definition read_last_reply (toggled : bool) (history : list Message) : option speech :=
  if truthy history && GTTS_AVAILABLE && toggled then
    let last := last_assistant history in
    match last with
    | Some last =>
        let mp3 := _tts_to_bytes (content last) in
        match mp3 with
        | Some (b :: rest) => Some (Audio (b :: rest))
        | _ => Some (Info "Could not synthesize speech (gTTS unavailable or failed).")
        end
    | None => None
    end
  else None.

End Speech.

(** ** A concrete session

    Data on which the theorems are exercised. *)

Module Demo.

Definition photo : UploadedFile :=
  {| name := "cat.png"; type := "image/png"; data := [x89; x50; x4e; x47] |}.

Definition upload_clip : UploadedFile :=
  {| name := "memo.mp3"; type := "audio/mpeg"; data := [x49; x44; x33] |}.

Definition mic_clip : UploadedFile :=
  {| name := "recording.wav"; type := "audio/wav"; data := [x52; x49; x46; x46] |}.

(** 4 November 2026, 09:05 and [n] seconds. *)
Definition at_second (n : Z) : datetime :=
  {| year := 2026; month := 11; day := 4; hour := 9; minute := 5; second := n |}.

(** A clock that ticks one second per reading. *)
Definition ticking (n : nat) : datetime := at_second (Z.of_nat n).

(** The night the clocks go back, 1 November 2026: 01:59:59 local time
    is followed by 01:00:00. *)
Definition falling_back (n : nat) : datetime :=
  match n with
  | O => {| year := 2026; month := 11; day := 1; hour := 1; minute := 59; second := 59 |}
  | S _ => {| year := 2026; month := 11; day := 1; hour := 1; minute := 0; second := 0 |}
  end.

Definition greeting : Response :=
  {| resp_text := inr (Some "Hello! How can I help?");
     resp_candidates := None;
     resp_str := "<GenerateContentResponse>" |}.

Definition quota_exceeded : exn :=
  Exception "ResourceExhausted" "429 quota exceeded".

Definition with_key (k : string) : option string :=
  if String.eqb k "GOOGLE_API_KEY" then Some "secret" else None.

Definition no_key (k : string) : option string := None.

(** The provider answers with a greeting. *)
Definition world : external :=
  {| environ := with_key; wall_clock := ticking;
     provider := fun _ _ => inr greeting |}.

(** The provider is out of quota. *)
Definition world_failing : external :=
  {| environ := with_key; wall_clock := ticking;
     provider := fun _ _ => inl quota_exceeded |}.

(** The key is not set. *)
Definition world_without_key : external :=
  {| environ := no_key; wall_clock := ticking;
     provider := fun _ _ => inr greeting |}.

(** The wall clock steps back during the call. *)
Definition world_falling_back : external :=
  {| environ := with_key; wall_clock := falling_back;
     provider := fun _ _ => inr greeting |}.

(** The session after the prelude of its first run. *)
Definition fresh : state :=
  {| chat := Some []; persona_prompt := Some "You are a helpful, concise assistant.";
     clock_reads := 0; configured_key := None; calls := []; screen := [] |}.

(** The widgets when Send is clicked. *)
Definition compose (text : string) (imgs : list UploadedFile)
    (upload mic : option UploadedFile) : widgets :=
  {| system_prompt := "You are a helpful, concise assistant.";
     mic_enabled := true; clear_clicked := false;
     user_text := text; send_clicked := true;
     images := imgs; audio_upload := upload; audio_input := mic;
     download_txt_clicked := false; download_json_clicked := false |}.

(** A response with no direct text but a first candidate. *)
Definition candidate_only : Response :=
  {| resp_text := inr None;
     resp_candidates :=
       Some [ {| cand_content :=
                   Some {| content_parts := Some [ {| part_text := Some "From the first part" |} ] |} |} ];
     resp_str := "<GenerateContentResponse>" |}.

(** A response with empty text and no candidates. *)
Definition no_candidates : Response :=
  {| resp_text := inr (Some ""); resp_candidates := Some [];
     resp_str := "<GenerateContentResponse>" |}.

(** A reply without candidates, as the provider's library gives it for a
    blocked prompt: its [text] accessor raises [ValueError]. *)
Definition blocked_reply : Response :=
  {| resp_text :=
       inl (ValueError
              "response.text requires the response to contain a valid Part, but none were returned");
     resp_candidates := Some [];
     resp_str := "<GenerateContentResponse>" |}.

(** The provider answers with [r]. *)
Definition world_answering (r : Response) : external :=
  {| environ := Demo.with_key; wall_clock := Demo.ticking;
     provider := fun _ _ => inr r |}.

(** The key is set, but empty. *)
Definition empty_key (k : string) : option string :=
  if String.eqb k "GOOGLE_API_KEY" then Some "" else None.

Definition world_empty_key : external :=
  {| environ := empty_key; wall_clock := ticking;
     provider := fun _ _ => inr greeting |}.

(** The widgets of a run in which Send is not clicked. *)
Definition idle (clear txt json : bool) : widgets :=
  {| system_prompt := "You are a helpful, concise assistant.";
     mic_enabled := false; clear_clicked := clear;
     user_text := ""; send_clicked := false;
     images := []; audio_upload := None; audio_input := None;
     download_txt_clicked := txt; download_json_clicked := json |}.

(** A synthesis that always gives the same three bytes. *)
Definition chime (text : string) : exn + list byte := inr [x49; x44; x33].

End Demo.

(** * Properties *)

(** ** Request Builder *)

Lemma or_default (t d : string) :
  or_ t d = match t with EmptyString => d | String a t' => String a t' end.
Proof. destruct t; reflexivity. Qed.

Lemma fold_append_images (image_files : list UploadedFile) (acc : list Part) :
  fold_left
    (fun parts f => append parts (PBlob (or_ (type f) "image/png") (read f)))
    image_files acc
  = acc ++ map image_part image_files.
Proof.
  revert acc; induction image_files as [|f fs IH]; intros acc; simpl.
  - now rewrite app_nil_r.
  - rewrite IH. unfold append. rewrite <- app_assoc. simpl.
    unfold image_part, read. now rewrite or_default.
Qed.

(** The parts list in closed form. *)
Lemma make_parts_closed_form (text : string) (image_files : list UploadedFile)
    (audio_file : option UploadedFile) :
  _make_parts_from_inputs text image_files audio_file
  = (match text with EmptyString => [] | _ => [PText text] end)
    ++ map image_part image_files
    ++ (match audio_file with Some a => [audio_part a] | None => [] end).
Proof.
  unfold _make_parts_from_inputs.
  assert (Himg : forall acc : list Part,
    (if truthy image_files
     then fold_left
            (fun parts f => append parts (PBlob (or_ (type f) "image/png") (read f)))
            image_files acc
     else acc) = acc ++ map image_part image_files).
  { intros acc. destruct image_files as [|f fs].
    - simpl. now rewrite app_nil_r.
    - change (truthy (f :: fs)) with true. cbv iota. apply fold_append_images. }
  cbv zeta. rewrite Himg.
  destruct audio_file as [a|]; unfold append.
  - rewrite <- !app_assoc. unfold audio_part, read. rewrite or_default.
    destruct text; reflexivity.
  - rewrite app_nil_r. destruct text; reflexivity.
Qed.

(** C6.  The parts list is the text part first (exactly when the text is
    not empty), then one (mimeType, bytes) pair per image at the position
    the image has in the input, then the audio clip last (when there is
    one); nothing else is in the list. *)
Theorem make_parts_order (text : string) (image_files : list UploadedFile)
    (audio_file : option UploadedFile) :
  let parts := _make_parts_from_inputs text image_files audio_file in
  let offset := match text with EmptyString => 0 | _ => 1 end in
  parts
  = (match text with EmptyString => [] | _ => [PText text] end)
    ++ map image_part image_files
    ++ (match audio_file with Some a => [audio_part a] | None => [] end) /\
  (text <> "" <-> nth_error parts 0 = Some (PText text)) /\
  (forall i f, nth_error image_files i = Some f ->
               nth_error parts (offset + i) = Some (image_part f)) /\
  (forall a, audio_file = Some a ->
             nth_error parts (offset + List.length image_files) = Some (audio_part a)) /\
  List.length parts
  = offset + List.length image_files
    + match audio_file with Some _ => 1 | None => 0 end.
Proof.
  intros parts offset. subst parts.
  rewrite make_parts_closed_form. split; [reflexivity|]. split; [|split; [|split]].
  - destruct text as [|c t]; cbn.
    + split; [congruence|].
      destruct image_files as [|f fs]; [destruct audio_file|]; cbn; discriminate.
    + split; [reflexivity|discriminate].
  - intros i f Hi.
    assert (Hm : nth_error (map image_part image_files) i = Some (image_part f))
      by (now rewrite nth_error_map, Hi).
    assert (Hlt : i < List.length (map image_part image_files))
      by (apply nth_error_Some; congruence).
    destruct text; subst offset; cbn [Nat.add app nth_error];
      now rewrite nth_error_app1.
  - intros a ->.
    assert (Hlen : List.length image_files = List.length (map image_part image_files))
      by (now rewrite length_map).
    destruct text; subst offset; cbn [Nat.add app nth_error];
      rewrite nth_error_app2, Hlen by (rewrite length_map; lia);
      now rewrite Nat.sub_diag.
  - subst offset. rewrite !length_app, length_map.
    destruct text, audio_file; cbn; lia.
Qed.

(** ** [run_model] in closed form *)

Lemma use_multimodal_has_attachment (image_files : list UploadedFile)
    (audio_file : option UploadedFile) :
  (truthy image_files && (0 <? len image_files)%nat) || is_not_None audio_file
  = has_attachment image_files audio_file.
Proof. destruct image_files, audio_file; reflexivity. Qed.

Lemma first_candidate_text_spec (r : Response) :
  match first_candidate_text r with
  | inr t => t
  | inl _ => resp_str r
  end
  = match first_part_text r with
    | Some t => t
    | None => resp_str r
    end.
Proof.
  unfold first_candidate_text, first_part_text.
  destruct (resp_candidates r) as [cs|]; [|reflexivity].
  destruct cs as [|[co] cs]; [reflexivity|].
  destruct co as [[ps]|]; [|reflexivity].
  destruct ps as [[|[t] ps]|]; try reflexivity.
  destruct t; reflexivity.
Qed.

Lemma extraction_three_tier (r : Response) (s : state) :
  (text_out <- getattr_or_None (resp_text r) ;;
   match text_out with
   | Some t =>
       if negb (truthy t)
       then try_except (lift (first_candidate_text r)) (fun _ => ret (resp_str r))
       else ret t
   | None => try_except (lift (first_candidate_text r)) (fun _ => ret (resp_str r))
   end) s
  = (extraction_outcome r, s).
Proof.
  assert (Hfb : try_except (lift (first_candidate_text r))
                  (fun _ => ret (resp_str r)) s
                = (Return match first_candidate_text r with
                          | inr t => t
                          | inl _ => resp_str r
                          end, s)).
  { unfold try_except, lift. destruct (first_candidate_text r); reflexivity. }
  unfold extraction_outcome, three_tier_text, bind, getattr_or_None.
  rewrite <- first_candidate_text_spec.
  destruct (resp_text r) as [e|[[|c t]|]]; [destruct (is_AttributeError e)| | |];
    cbn; auto.
Qed.

Lemma run_model_eq (ext : external) (text : string)
    (image_files : list UploadedFile) (audio_file : option UploadedFile) (s : state) :
  run_model ext text image_files audio_file s
  = match environ ext "GOOGLE_API_KEY" with
    | Some (String c k) =>
        let key := String c k in
        let s1 := set_configured_key (Some key) s in
        match persona_prompt s with
        | None =>
            (Raise (AttributeError "st.session_state has no attribute 'persona_prompt'"),
             s1)
        | Some persona =>
            let req := request_of key persona text image_files audio_file in
            let s2 := set_calls (calls s ++ [req]) s1 in
            match provider ext (calls s) req with
            | inl e => (Raise e, s2)
            | inr r => (extraction_outcome r, s2)
            end
        end
    | _ => (Raise missing_key_error, s)
    end.
Proof.
  unfold run_model, _require_key, os_environ_get, bind, ret.
  destruct (environ ext "GOOGLE_API_KEY") as [[|c k]|]; try reflexivity.
  cbn -[_make_parts_from_inputs]. 
  unfold session_persona_prompt; cbn.
  destruct (persona_prompt s) as [persona|]; [|reflexivity].
  rewrite use_multimodal_has_attachment.
  unfold request_of.
  destruct (has_attachment image_files audio_file);
  unfold generate_content, fallback_greeting; cbn -[_make_parts_from_inputs];
  [|destruct text; cbn];
  match goal with |- context [provider ?e ?c ?r] => destruct (provider e c r) end;
  try reflexivity; apply extraction_three_tier.
Qed.


(** ** The send handler in closed form *)

Lemma extraction_outcome_not_rerun (r : Response) : extraction_outcome r <> Rerun.
Proof.
  unfold extraction_outcome.
  destruct (resp_text r) as [e|v]; [destruct (is_AttributeError e)|]; discriminate.
Qed.

Lemma run_model_frame (ext : external) (text : string)
    (image_files : list UploadedFile) (audio_file : option UploadedFile) (s : state) :
  let rs := run_model ext text image_files audio_file s in
  chat (snd rs) = chat s /\ clock_reads (snd rs) = clock_reads s /\
  screen (snd rs) = screen s /\ fst rs <> Rerun.
Proof.
  intros rs; subst rs; rewrite run_model_eq.
  destruct (environ ext "GOOGLE_API_KEY") as [[|c k]|];
    try (repeat split; cbn; congruence).
  cbv zeta. destruct (persona_prompt s) as [persona|];
    try (repeat split; cbn; congruence).
  destruct (provider ext (calls s) _) as [e|r]; repeat split; cbn;
    try congruence.
  apply extraction_outcome_not_rerun.
Qed.

Lemma string_app_nil_r (s : string) : (s ++ "")%string = s.
Proof. induction s; simpl; congruence. Qed.

Lemma string_app_assoc (a b c : string) :
  ((a ++ b) ++ c)%string = (a ++ (b ++ c))%string.
Proof. induction a; simpl; congruence. Qed.

Lemma handler_preview (w : widgets) :
  (let preview := or_ (user_text w) "" in
   let preview :=
     if truthy (images w) then
       (preview ++ nl ++ nl ++ picture_emoji ++ " "
        ++ str_of_nat (len (images w)) ++ " image(s) attached")%string
     else preview in
   let preview :=
     if is_not_None (audio_upload w) || is_not_None (mic_audio w) then
       (preview ++ nl ++ nl ++ microphone_emoji ++ " audio attached")%string
     else preview in
   preview) = preview_text w.
Proof.
  unfold preview_text. cbv zeta.
  replace (or_ (user_text w) "") with (user_text w)
    by (destruct (user_text w); reflexivity).
  destruct (images w) as [|f fs], (audio_upload w), (mic_audio w); cbn [truthy Truthy_list is_not_None orb];
  rewrite ?string_app_nil_r, ?string_app_assoc; reflexivity.
Qed.

Lemma sendable_guard (w : widgets) :
  sendable w <->
  truthy (user_text w) || truthy (images w)
  || is_not_None (audio_upload w) || is_not_None (mic_audio w) = true.
Proof.
  unfold sendable.
  destruct (user_text w), (images w), (audio_upload w), (mic_audio w); cbn;
    intuition congruence.
Qed.

Lemma send_handler_rejected (ext : external) (w : widgets) (s : state) :
  send_clicked w = true -> ~ sendable w ->
  send_handler ext w s
  = (Return tt,
     set_screen (screen s ++ [Warning "Type a message or attach media before sending."]) s).
Proof.
  intros Hc Hn. unfold send_handler. rewrite Hc.
  rewrite sendable_guard in Hn. apply not_true_is_false in Hn. rewrite Hn.
  reflexivity.
Qed.

Lemma send_handler_accepted (ext : external) (w : widgets) (s : state) :
  chat s <> None -> send_clicked w = true -> sendable w ->
  send_handler ext w s
  = let rs := run_model ext (user_text w) (images w) (audio_source w)
                (awaiting_response ext w s) in
    (Rerun,
     set_chat (Some (store s ++ [user_turn ext w s;
                                 assistant_turn ext (fst rs) (snd rs)]))
       (set_clock_reads (S (clock_reads (snd rs))) (snd rs))).
Proof.
  intros Hh Hc Hs. unfold send_handler. rewrite Hc.
  apply sendable_guard in Hs. rewrite Hs. cbn [negb].
  pose proof (handler_preview w) as Hp. cbv zeta in Hp. rewrite Hp. clear Hp.
  replace (if is_not_None (mic_audio w) then mic_audio w else audio_upload w)
    with (audio_source w)
    by (unfold audio_source; destruct (mic_audio w); reflexivity).
  cbv zeta.
  pose proof (run_model_frame ext (user_text w) (images w) (audio_source w)
                (awaiting_response ext w s)) as (Hchat & Hclk & _ & Hrr).
  unfold bind at 1. unfold datetime_now at 1.
  unfold chat_append at 1. unfold bind at 1. unfold bind at 1. unfold session_chat at 1.
  cbn [chat set_clock_reads].
  destruct (chat s) as [h|] eqn:Hch; [|congruence].
  assert (Hst : store s = h) by (unfold store; now rewrite Hch).
  assert (Haw : awaiting_response ext w s
                = set_chat (Some (append h (user_turn ext w s)))
                    (set_clock_reads (S (clock_reads s)) s)).
  { unfold awaiting_response. now rewrite Hst. }
  unfold bind at 1, ret at 1, modify at 1. fold (user_turn ext w s).
  rewrite <- Haw. unfold bind at 1, try_except at 1.
  destruct (run_model ext (user_text w) (images w) (audio_source w)
              (awaiting_response ext w s)) as [o s1].
  cbn [fst snd] in *.
  assert (Hc1 : chat s1 = Some (h ++ [user_turn ext w s])).
  { rewrite Hchat, Haw. reflexivity. }
  rewrite Hst.
  destruct o as [t|e|]; [| |congruence];
    unfold ret, bind, chat_append, bind, session_chat, datetime_now, modify, st_rerun;
    rewrite Hc1; cbn; unfold append; rewrite <- app_assoc; reflexivity.
Qed.

(** ** Claims about requests, responses and the send handler *)

Lemma run_model_sends (ext : external) (text : string)
    (image_files : list UploadedFile) (audio_file : option UploadedFile)
    (s : state) (key persona : string) :
  environ ext "GOOGLE_API_KEY" = Some key -> key <> "" ->
  persona_prompt s = Some persona ->
  sends ext text image_files audio_file s
    (request_of key persona text image_files audio_file).
Proof.
  intros Hk Hne Hp. unfold sends. rewrite run_model_eq, Hk.
  destruct key as [|c k]; [congruence|]. rewrite Hp. cbv zeta.
  destruct (provider ext (calls s) _); reflexivity.
Qed.

(** C5.  A request with an image or an audio clip goes to the multimodal
    model, every other request to the text-only model. *)
Theorem model_variant_selection (ext : external) (text : string)
    (image_files : list UploadedFile) (audio_file : option UploadedFile)
    (s : state) (key persona : string) :
  environ ext "GOOGLE_API_KEY" = Some key -> key <> "" ->
  persona_prompt s = Some persona ->
  exists req,
    sends ext text image_files audio_file s req /\
    (image_files <> [] \/ audio_file <> None ->
     model_name (req_model req) = MULTIMODAL_MODEL) /\
    (image_files = [] /\ audio_file = None ->
     model_name (req_model req) = TEXT_MODEL).
Proof.
  intros Hk Hne Hp.
  exists (request_of key persona text image_files audio_file). split.
  - now apply run_model_sends.
  - cbn [request_of req_model model_name]. split.
    + intros [H|H]; destruct image_files, audio_file; cbn; congruence.
    + intros [-> ->]. reflexivity.
Qed.

Lemma model_variant_selection_witness :
  exists req,
    sends Demo.world "look" [Demo.photo] None Demo.fresh req /\
    ([Demo.photo] <> [] \/ @None UploadedFile <> None ->
     model_name (req_model req) = MULTIMODAL_MODEL) /\
    ([Demo.photo] = [] /\ @None UploadedFile = None ->
     model_name (req_model req) = TEXT_MODEL).
Proof.
  apply (@model_variant_selection Demo.world "look" [Demo.photo] None Demo.fresh
           "secret" "You are a helpful, concise assistant.").
  - reflexivity.
  - discriminate.
  - reflexivity.
Defined.

(** C7.  Without [GOOGLE_API_KEY] in the environment [run_model] raises
    the configuration error at once: the state, and with it the list of
    calls made to the provider, is what it was. *)
Theorem missing_key_fails_before_any_call (ext : external) (text : string)
    (image_files : list UploadedFile) (audio_file : option UploadedFile) (s : state) :
  environ ext "GOOGLE_API_KEY" = None ->
  run_model ext text image_files audio_file s = (Raise missing_key_error, s) /\
  calls (snd (run_model ext text image_files audio_file s)) = calls s.
Proof.
  intros Hk.
  assert (Hrun : run_model ext text image_files audio_file s
                 = (Raise missing_key_error, s)).
  { rewrite run_model_eq, Hk. reflexivity. }
  split; [exact Hrun|]. now rewrite Hrun.
Qed.

Lemma missing_key_fails_before_any_call_witness :
  environ Demo.world_without_key "GOOGLE_API_KEY" = None /\
  run_model Demo.world_without_key "hi" [] None Demo.fresh
  = (Raise missing_key_error, Demo.fresh) /\
  calls (snd (run_model Demo.world_without_key "hi" [] None Demo.fresh))
  = calls Demo.fresh.
Proof.
  split; [reflexivity|].
  apply (@missing_key_fails_before_any_call Demo.world_without_key "hi" [] None Demo.fresh).
  reflexivity.
Defined.

(** C2, as stated, fails: with empty text and one image the request holds
    the image alone. *)
Lemma greeting_precedes_image_fails :
  _make_parts_from_inputs "" [Demo.photo] None = [image_part Demo.photo] /\
  ~ greeting_precedes_image Demo.world Demo.photo Demo.fresh.
Proof.
  split; [reflexivity|].
  intros (req & Hs & Hp). unfold sends in Hs. vm_compute in Hs.
  injection Hs as <-. vm_compute in Hp. discriminate Hp.
Qed.

(** C2, amended.  The parts sent to the provider are never empty; with
    empty text they are the image alone when one image is attached, and the
    fallback greeting alone when nothing is attached. *)
Theorem request_parts (ext : external) (text : string)
    (image_files : list UploadedFile) (audio_file : option UploadedFile)
    (s : state) (key persona : string) :
  environ ext "GOOGLE_API_KEY" = Some key -> key <> "" ->
  persona_prompt s = Some persona ->
  exists req,
    sends ext text image_files audio_file s req /\
    parts_of (req_contents req) <> [] /\
    (forall img, text = "" -> image_files = [img] -> audio_file = None ->
     parts_of (req_contents req) = [image_part img]) /\
    (text = "" -> image_files = [] -> audio_file = None ->
     parts_of (req_contents req) = [PText fallback_greeting]).
Proof.
  intros Hk Hne Hp.
  exists (request_of key persona text image_files audio_file). split.
  - now apply run_model_sends.
  - cbn [request_of req_contents]. repeat split.
    + rewrite make_parts_closed_form.
      destruct image_files as [|f fs], audio_file as [a|]; cbn;
        try discriminate; destruct text; cbn; discriminate.
    + intros img -> -> ->. cbn [has_attachment parts_of].
      now rewrite make_parts_closed_form.
    + intros -> -> ->. reflexivity.
Qed.

Lemma request_parts_witness :
  Demo.with_key "GOOGLE_API_KEY" = Some "secret" /\
  exists req,
    sends Demo.world "" [Demo.photo] None Demo.fresh req /\
    parts_of (req_contents req) <> [] /\
    (forall img, "" = "" -> [Demo.photo] = [img] -> @None UploadedFile = None ->
     parts_of (req_contents req) = [image_part img]) /\
    ("" = "" -> [Demo.photo] = [] -> @None UploadedFile = None ->
     parts_of (req_contents req) = [PText fallback_greeting]).
Proof.
  split; [reflexivity|].
  apply (@request_parts Demo.world "" [Demo.photo] None Demo.fresh
           "secret" "You are a helpful, concise assistant.").
  - reflexivity.
  - discriminate.
  - reflexivity.
Defined.

(** X1.  The three tiers, whenever the read of [response.text] yields a value or
    raises [AttributeError]: the text [run_model] returns is the direct
    text of the response when that is not empty, else the text of the first
    part of the first candidate, else the printed response. *)
Theorem response_text_three_tier (ext : external) (text : string)
    (image_files : list UploadedFile) (audio_file : option UploadedFile)
    (s : state) (key persona : string) (r : Response) :
  environ ext "GOOGLE_API_KEY" = Some key -> key <> "" ->
  persona_prompt s = Some persona ->
  provider ext (calls s) (request_of key persona text image_files audio_file) = inr r ->
  (forall e, resp_text r = inl e -> exn_class e = "AttributeError") ->
  let out := fst (run_model ext text image_files audio_file s) in
  out = Return (three_tier_text r) /\
  (forall t, resp_text r = inr (Some t) -> t <> "" -> out = Return t) /\
  (forall t, no_direct_text r -> first_part_text r = Some t -> out = Return t) /\
  (no_direct_text r -> first_part_text r = None -> out = Return (resp_str r)).
Proof.
  intros Hk Hne Hp Hr Hread out.
  assert (Hout : out = Return (three_tier_text r)).
  { subst out. rewrite run_model_eq, Hk.
    destruct key as [|c k]; [congruence|]. rewrite Hp. cbv zeta. rewrite Hr.
    cbn [fst]. unfold extraction_outcome.
    destruct (resp_text r) as [e|v] eqn:He; [|reflexivity].
    unfold is_AttributeError. rewrite (Hread e eq_refl). reflexivity. }
  rewrite Hout. unfold three_tier_text, no_direct_text. repeat split.
  - intros t -> Ht. destruct t; congruence.
  - intros t [-> | [-> | (e & -> & _)]] ->; reflexivity.
  - intros [-> | [-> | (e & -> & _)]] ->; reflexivity.
Qed.

Lemma response_text_three_tier_witness :
  Demo.with_key "GOOGLE_API_KEY" = Some "secret" /\
  fst (run_model (Demo.world_answering Demo.candidate_only) "hi" [] None Demo.fresh)
  = Return "From the first part".
Proof.
  split; [reflexivity|].
  refine (proj1 (proj2 (proj2 (@response_text_three_tier
                   (Demo.world_answering Demo.candidate_only) "hi" [] None Demo.fresh
                   "secret" "You are a helpful, concise assistant." Demo.candidate_only
                   _ _ _ _ _))) "From the first part" _ _);
    [reflexivity | discriminate | reflexivity | reflexivity
    | intros e He; discriminate He | left; reflexivity | reflexivity].
Defined.

(** C8, where the code departs from it.  The read of [response.text] is
    not inside the [try]: when it raises anything but [AttributeError],
    as the provider's library does on a reply without candidates,
    [run_model] raises that exception instead of falling back to the first
    candidate's first part or to the printed response. *)
Theorem text_read_error_escapes_fallback (ext : external) (text : string)
    (image_files : list UploadedFile) (audio_file : option UploadedFile)
    (s : state) (key persona : string) (r : Response) (e : exn) :
  environ ext "GOOGLE_API_KEY" = Some key -> key <> "" ->
  persona_prompt s = Some persona ->
  provider ext (calls s) (request_of key persona text image_files audio_file) = inr r ->
  resp_text r = inl e -> exn_class e <> "AttributeError" ->
  fst (run_model ext text image_files audio_file s) = Raise e /\
  fst (run_model ext text image_files audio_file s) <> Return (three_tier_text r).
Proof.
  intros Hk Hne Hp Hr He Hclass.
  assert (Hout : fst (run_model ext text image_files audio_file s) = Raise e).
  { rewrite run_model_eq, Hk.
    destruct key as [|c k]; [congruence|]. rewrite Hp. cbv zeta. rewrite Hr.
    cbn [fst]. unfold extraction_outcome, is_AttributeError. rewrite He.
    apply String.eqb_neq in Hclass. now rewrite Hclass. }
  split; [exact Hout|]. rewrite Hout. discriminate.
Qed.

Lemma text_read_error_escapes_fallback_witness :
  Demo.with_key "GOOGLE_API_KEY" = Some "secret" /\
  three_tier_text Demo.blocked_reply = "<GenerateContentResponse>" /\
  fst (run_model (Demo.world_answering Demo.blocked_reply) "hi" [] None Demo.fresh)
  = Raise (ValueError
             "response.text requires the response to contain a valid Part, but none were returned").
Proof.
  split; [reflexivity|]. split; [reflexivity|].
  refine (proj1 (@text_read_error_escapes_fallback
                   (Demo.world_answering Demo.blocked_reply) "hi" [] None Demo.fresh
                   "secret" "You are a helpful, concise assistant." Demo.blocked_reply
                   _ _ _ _ _ _ _));
    [reflexivity | discriminate | reflexivity | reflexivity | reflexivity | discriminate].
Defined.

(** C3.  A send with no text and no attachment appends nothing: the store
    is the one before, and a warning is shown. *)
Theorem empty_send_rejected (ext : external) (w : widgets) (s : state) :
  send_clicked w = true ->
  user_text w = "" -> images w = [] -> audio_upload w = None -> mic_audio w = None ->
  exists s',
    send_handler ext w s = (Return tt, s') /\
    chat s' = chat s /\ store s' = store s /\
    screen s' = screen s ++ [Warning "Type a message or attach media before sending."].
Proof.
  intros Hc Ht Hi Hu Hm.
  rewrite send_handler_rejected; [|assumption|].
  - eexists; split; [reflexivity|]. repeat split.
  - unfold sendable. rewrite Ht, Hi, Hu, Hm. intuition congruence.
Qed.

Lemma empty_send_rejected_witness :
  send_clicked (Demo.compose "" [] None None) = true /\
  exists s',
    send_handler Demo.world (Demo.compose "" [] None None) Demo.fresh = (Return tt, s') /\
    chat s' = chat Demo.fresh /\ store s' = store Demo.fresh /\
    screen s' = screen Demo.fresh
                ++ [Warning "Type a message or attach media before sending."].
Proof.
  split; [reflexivity|].
  apply (@empty_send_rejected Demo.world (Demo.compose "" [] None None) Demo.fresh);
    reflexivity.
Defined.

(** Every accepted send ends with a request for a rerun and two more
    turns in the store. *)

Lemma accepted_send_appends (ext : external) (w : widgets) (s : state) :
  chat s <> None -> send_clicked w = true -> sendable w ->
  exists u a s',
    send_handler ext w s = (Rerun, s') /\
    chat s' = Some (store s ++ [u; a]) /\
    u = user_turn ext w s /\
    a = assistant_turn ext
          (fst (run_model ext (user_text w) (images w) (audio_source w)
                  (awaiting_response ext w s)))
          (set_clock_reads (S (clock_reads s)) s).
Proof.
  intros Hh Hc Hs. rewrite send_handler_accepted by assumption. cbv zeta.
  do 3 eexists. split; [reflexivity|]. split; [reflexivity|]. split; [reflexivity|].
  unfold assistant_turn. f_equal. f_equal. f_equal.
  now destruct (run_model_frame ext (user_text w) (images w) (audio_source w)
                  (awaiting_response ext w s)) as (_ & -> & _).
Qed.

Lemma prefix_app (p s : string) : String.prefix p (p ++ s) = true.
Proof.
  induction p as [|c p IH]; simpl.
  - now destruct s.
  - destruct (ascii_dec c c); [exact IH|congruence].
Qed.

(** C4.  When [run_model] raises [e] during a send, the handler still ends
    normally (with the rerun every accepted send ends with), the
    assistant's turn reads ["Error: "] followed by [str(e)], and any later
    sendable input is accepted again. *)
Theorem failure_becomes_error_turn (ext : external) (w : widgets) (s : state)
    (e : exn) (s1 : state) :
  chat s <> None -> send_clicked w = true -> sendable w ->
  run_model ext (user_text w) (images w) (audio_source w) (awaiting_response ext w s)
  = (Raise e, s1) ->
  exists a s',
    send_handler ext w s = (Rerun, s') /\
    chat s' = Some (store s ++ [user_turn ext w s; a]) /\
    role a = "assistant" /\
    content a = ("Error: " ++ exn_str e)%string /\
    String.prefix "Error: " (content a) = true /\
    (forall ext' w', send_clicked w' = true -> sendable w' ->
       exists u' a' s'',
         send_handler ext' w' s' = (Rerun, s'') /\
         chat s'' = Some (store s' ++ [u'; a'])).
Proof.
  intros Hh Hc Hs Hrm.
  destruct (@accepted_send_appends ext w s Hh Hc Hs) as (u & a & s' & Hrun & Hchat & -> & ->).
  rewrite Hrm in *. cbn [fst] in *.
  eexists; exists s'. split; [exact Hrun|]. split; [exact Hchat|].
  split; [reflexivity|]. split; [reflexivity|]. split; [apply prefix_app|].
  intros ext' w' Hc' Hs'.
  destruct (@accepted_send_appends ext' w' s') as (u' & a' & s'' & Hrun' & Hchat' & _);
    try assumption.
  - rewrite Hchat. discriminate.
  - now exists u', a', s''.
Qed.

Lemma failure_becomes_error_turn_witness :
  send_clicked (Demo.compose "hi" [] None None) = true /\
  exists a s',
    send_handler Demo.world_failing (Demo.compose "hi" [] None None) Demo.fresh
    = (Rerun, s') /\
    chat s' = Some (store Demo.fresh
                    ++ [user_turn Demo.world_failing (Demo.compose "hi" [] None None)
                          Demo.fresh; a]) /\
    role a = "assistant" /\
    content a = ("Error: " ++ exn_str Demo.quota_exceeded)%string /\
    String.prefix "Error: " (content a) = true /\
    (forall ext' w', send_clicked w' = true -> sendable w' ->
       exists u' a' s'',
         send_handler ext' w' s' = (Rerun, s'') /\
         chat s'' = Some (store s' ++ [u'; a'])).
Proof.
  split; [reflexivity|].
  eapply (@failure_becomes_error_turn Demo.world_failing
            (Demo.compose "hi" [] None None) Demo.fresh Demo.quota_exceeded).
  - discriminate.
  - reflexivity.
  - left. discriminate.
  - vm_compute. reflexivity.
Defined.

Lemma send_handler_calls (ext : external) (w : widgets) (s : state)
    (key persona : string) :
  chat s <> None -> send_clicked w = true -> sendable w ->
  environ ext "GOOGLE_API_KEY" = Some key -> key <> "" ->
  persona_prompt s = Some persona ->
  calls (snd (send_handler ext w s))
  = calls s ++ [request_of key persona (user_text w) (images w) (audio_source w)].
Proof.
  intros Hh Hc Hs Hk Hne Hp. rewrite send_handler_accepted by assumption.
  cbv zeta. cbn [snd calls set_chat set_clock_reads].
  now rewrite (@run_model_sends ext (user_text w) (images w) (audio_source w)
                 (awaiting_response ext w s) key persona Hk Hne Hp).
Qed.

(** C10.  With a microphone recording the request carries that recording
    as its one audio part and the send is what it would be without the
    uploaded file; the uploaded file is the audio part only when there is
    no recording. *)
Theorem microphone_takes_precedence (ext : external) (w : widgets) (s : state)
    (key persona : string) :
  chat s <> None -> send_clicked w = true ->
  environ ext "GOOGLE_API_KEY" = Some key -> key <> "" ->
  persona_prompt s = Some persona ->
  (forall m, mic_audio w = Some m ->
     send_handler ext w s = send_handler ext (without_upload w) s /\
     exists req,
       calls (snd (send_handler ext w s)) = calls s ++ [req] /\
       parts_of (req_contents req)
       = (match user_text w with EmptyString => [] | _ => [PText (user_text w)] end)
         ++ map image_part (images w) ++ [audio_part m]) /\
  (forall u, mic_audio w = None -> audio_upload w = Some u ->
     exists req,
       calls (snd (send_handler ext w s)) = calls s ++ [req] /\
       parts_of (req_contents req)
       = (match user_text w with EmptyString => [] | _ => [PText (user_text w)] end)
         ++ map image_part (images w) ++ [audio_part u]).
Proof.
  intros Hh Hc Hk Hne Hp.
  assert (Hparts : forall a, audio_source w = Some a ->
    parts_of (req_contents
                (request_of key persona (user_text w) (images w) (audio_source w)))
    = (match user_text w with EmptyString => [] | _ => [PText (user_text w)] end)
      ++ map image_part (images w) ++ [audio_part a]).
  { intros a ->. cbn [request_of req_contents].
    replace (has_attachment (images w) (Some a)) with true
      by (now destruct (images w)).
    cbn [parts_of]. apply make_parts_closed_form. }
  split.
  - intros m Hm. split.
    + assert (Hm' : mic_audio (without_upload w) = Some m) by exact Hm.
      rewrite !send_handler_accepted; try assumption;
        try (unfold sendable; rewrite ?Hm, ?Hm'; intuition congruence).
      assert (Hu : user_turn ext (without_upload w) s = user_turn ext w s).
      { unfold user_turn, preview_text. rewrite Hm, Hm'. cbn [without_upload audio_upload user_text images].
        now destruct (audio_upload w). }
      assert (Ha : audio_source (without_upload w) = audio_source w).
      { unfold audio_source. now rewrite Hm, Hm'. }
      unfold awaiting_response. rewrite Hu, Ha. reflexivity.
    + eexists. split.
      * apply send_handler_calls; try eassumption.
        unfold sendable. rewrite Hm. intuition congruence.
      * apply Hparts. unfold audio_source. now rewrite Hm.
  - intros u Hm Hu. eexists. split.
    + apply send_handler_calls; try eassumption.
      unfold sendable. rewrite Hu. intuition congruence.
    + apply Hparts. unfold audio_source. now rewrite Hm.
Qed.

Lemma microphone_takes_precedence_witness :
  send_clicked (Demo.compose "listen" [] (Some Demo.upload_clip) (Some Demo.mic_clip))
  = true /\
  exists req,
    calls (snd (send_handler Demo.world
                  (Demo.compose "listen" [] (Some Demo.upload_clip) (Some Demo.mic_clip))
                  Demo.fresh))
    = calls Demo.fresh ++ [req] /\
    parts_of (req_contents req) = [PText "listen"; audio_part Demo.mic_clip].
Proof.
  split; [reflexivity|].
  refine (proj2 (proj1 (@microphone_takes_precedence Demo.world
            (Demo.compose "listen" [] (Some Demo.upload_clip) (Some Demo.mic_clip))
            Demo.fresh "secret" "You are a helpful, concise assistant."
            _ _ _ _ _) Demo.mic_clip _));
    [discriminate | reflexivity | reflexivity | discriminate | reflexivity | reflexivity].
Defined.

Lemma N_of_digit (d : Z) : N_of_ascii (digit d) = Z.to_N (48 + d mod 10).
Proof.
  unfold digit. apply N_ascii_embedding.
  pose proof (Z.mod_pos_bound d 10 ltac:(lia)). lia.
Qed.

Lemma compare_digit (a b : Z) :
  Ascii.compare (digit a) (digit b) = (a mod 10 ?= b mod 10)%Z.
Proof.
  unfold Ascii.compare. rewrite !N_of_digit.
  pose proof (Z.mod_pos_bound a 10 ltac:(lia)).
  pose proof (Z.mod_pos_bound b 10 ltac:(lia)).
  rewrite Z2N.inj_compare by lia.
  apply Z.add_compare_mono_l.
Qed.

Lemma compare_zpad2 (a b : Z) (s1 s2 : string) :
  (0 <= a < 100)%Z -> (0 <= b < 100)%Z ->
  String.compare (zpad2 a ++ s1) (zpad2 b ++ s2)
  = match (a ?= b)%Z with
    | Eq => String.compare s1 s2
    | c => c
    end.
Proof.
  intros Ha Hb. unfold zpad2. cbn [String.append String.compare].
  rewrite !compare_digit.
  destruct (Z.compare_spec ((a / 10) mod 10) ((b / 10) mod 10)) as [H1|H1|H1];
  destruct (Z.compare_spec (a mod 10) (b mod 10)) as [H2|H2|H2];
  destruct (Z.compare_spec a b) as [H3|H3|H3];
  try reflexivity; exfalso; revert H1 H2 H3; Z.div_mod_to_equations; lia.
Qed.

Lemma compare_zpad4 (a b : Z) (s1 s2 : string) :
  (0 <= a < 10000)%Z -> (0 <= b < 10000)%Z ->
  String.compare (zpad4 a ++ s1) (zpad4 b ++ s2)
  = match (a ?= b)%Z with
    | Eq => String.compare s1 s2
    | c => c
    end.
Proof.
  intros Ha Hb. unfold zpad4, zpad2. cbn [String.append String.compare].
  rewrite !compare_digit.
  destruct (Z.compare_spec ((a / 1000) mod 10) ((b / 1000) mod 10)) as [H0|H0|H0];
  destruct (Z.compare_spec ((a / 100) mod 10) ((b / 100) mod 10)) as [H1|H1|H1];
  destruct (Z.compare_spec ((a / 10) mod 10) ((b / 10) mod 10)) as [H2|H2|H2];
  destruct (Z.compare_spec (a mod 10) (b mod 10)) as [H3|H3|H3];
  destruct (Z.compare_spec a b) as [H4|H4|H4];
  try reflexivity; exfalso; revert H0 H1 H2 H3 H4; Z.div_mod_to_equations; lia.
Qed.

Lemma compare_same_head (c : ascii) (s1 s2 : string) :
  String.compare (String c s1) (String c s2) = String.compare s1 s2.
Proof.
  cbn [String.compare]. unfold Ascii.compare. now rewrite N.compare_refl.
Qed.

Lemma strftime_compare (d1 d2 : datetime) :
  dt_ok d1 -> dt_ok d2 ->
  String.compare (strftime d1) (strftime d2)
  = match (year d1 ?= year d2)%Z with
    | Eq =>
      match (month d1 ?= month d2)%Z with
      | Eq =>
        match (day d1 ?= day d2)%Z with
        | Eq =>
          match (hour d1 ?= hour d2)%Z with
          | Eq =>
            match (minute d1 ?= minute d2)%Z with
            | Eq => (second d1 ?= second d2)%Z
            | c => c
            end
          | c => c
          end
        | c => c
        end
      | c => c
      end
    | c => c
    end.
Proof.
  intros (Hy1 & Hm1 & Hd1 & HH1 & HM1 & HS1) (Hy2 & Hm2 & Hd2 & HH2 & HM2 & HS2).
  unfold strftime.
  rewrite <- (string_app_nil_r (zpad2 (second d1))).
  rewrite <- (string_app_nil_r (zpad2 (second d2))).
  rewrite compare_zpad4 by lia.
  cbn [String.append]. rewrite compare_same_head.
  rewrite compare_zpad2 by lia. rewrite compare_same_head.
  rewrite compare_zpad2 by lia.
  rewrite compare_same_head.
  rewrite compare_zpad2 by lia.
  rewrite compare_same_head.
  rewrite compare_zpad2 by lia. rewrite compare_same_head.
  rewrite compare_zpad2 by lia.
  cbn [String.compare].
  destruct (second d1 ?= second d2)%Z; reflexivity.
Qed.

Lemma strftime_monotone (d1 d2 : datetime) :
  dt_ok d1 -> dt_ok d2 -> dt_leb d1 d2 = true ->
  String.leb (strftime d1) (strftime d2) = true.
Proof.
  intros H1 H2 Hle. unfold String.leb. rewrite strftime_compare by assumption.
  unfold dt_leb, dt_tuple in Hle. cbn [lex_leb] in Hle.
  destruct (Z.compare_spec (year d1) (year d2));
  destruct (Z.compare_spec (month d1) (month d2));
  destruct (Z.compare_spec (day d1) (day d2));
  destruct (Z.compare_spec (hour d1) (hour d2));
  destruct (Z.compare_spec (minute d1) (minute d2));
  destruct (Z.compare_spec (second d1) (second d2));
  try reflexivity; exfalso;
  repeat match type of Hle with
  | context [(?a <? ?b)%Z] => destruct (Z.ltb_spec a b); try lia
  | context [(?a =? ?b)%Z] => destruct (Z.eqb_spec a b); try lia
  end; cbn in Hle; discriminate.
Qed.

(** C1, amended.  An accepted send appends the user's turn and then the
    assistant's turn, stamped with two successive readings of the wall
    clock; the stamps are in order whenever the second reading is not
    earlier than the first. *)
Theorem paired_turns_appended_by_send (ext : external) (w : widgets) (s : state) :
  chat s <> None -> send_clicked w = true -> sendable w ->
  exists u a s',
    send_handler ext w s = (Rerun, s') /\
    chat s' = Some (store s ++ [u; a]) /\
    role u = "user" /\ role a = "assistant" /\
    time u = strftime (wall_clock ext (clock_reads s)) /\
    time a = strftime (wall_clock ext (S (clock_reads s))) /\
    (dt_ok (wall_clock ext (clock_reads s)) ->
     dt_ok (wall_clock ext (S (clock_reads s))) ->
     dt_leb (wall_clock ext (clock_reads s)) (wall_clock ext (S (clock_reads s))) = true ->
     String.leb (time u) (time a) = true).
Proof.
  intros Hh Hc Hs.
  destruct (@accepted_send_appends ext w s Hh Hc Hs) as (u & a & s' & Hrun & Hchat & -> & ->).
  do 3 eexists. split; [exact Hrun|]. split; [exact Hchat|].
  do 4 (split; [reflexivity|]).
  intros Hok1 Hok2 Hle. now apply strftime_monotone.
Qed.

Lemma paired_turns_appended_by_send_witness :
  send_clicked (Demo.compose "hi" [Demo.photo] None None) = true /\
  exists u a s',
    send_handler Demo.world (Demo.compose "hi" [Demo.photo] None None) Demo.fresh
    = (Rerun, s') /\
    chat s' = Some (store Demo.fresh ++ [u; a]) /\
    role u = "user" /\ role a = "assistant" /\
    time u = "2026-11-04 09:05:00" /\
    time a = "2026-11-04 09:05:01" /\
    (dt_ok (Demo.ticking 0) -> dt_ok (Demo.ticking 1) ->
     dt_leb (Demo.ticking 0) (Demo.ticking 1) = true ->
     String.leb (time u) (time a) = true).
Proof.
  split; [reflexivity|].
  apply (@paired_turns_appended_by_send Demo.world
           (Demo.compose "hi" [Demo.photo] None None) Demo.fresh).
  - discriminate.
  - reflexivity.
  - left. discriminate.
Defined.

(** C1, as stated, fails: when the wall clock steps back during the call
    (the end of daylight saving time), the assistant's stamp is smaller
    than the user's. *)
Lemma timestamps_decrease_when_clock_falls_back :
  chat Demo.fresh <> None /\
  send_clicked (Demo.compose "hi" [] None None) = true /\
  sendable (Demo.compose "hi" [] None None) /\
  ~ paired_turns_appended Demo.world_falling_back
      (Demo.compose "hi" [] None None) Demo.fresh.
Proof.
  split; [discriminate|]. split; [reflexivity|]. split; [left; discriminate|].
  intros (u & a & s' & Hrun & Hchat & _ & _ & Hle).
  vm_compute in Hrun. injection Hrun as <-.
  vm_compute in Hchat. injection Hchat as <- <-.
  vm_compute in Hle. discriminate Hle.
Qed.


(** ** The JSON export *)

Lemma scanstring_escape_char (c : ascii) (rest : string) :
  scanstring (escape_char c ++ rest) = prepend (String c "") (scanstring rest).
Proof.
  destruct c as [[] [] [] [] [] [] [] []]; reflexivity.
Qed.

Lemma scanstring_escape (s rest : string) :
  scanstring (escape s ++ String dquote rest) = Some (s, rest).
Proof.
  induction s as [|c s IH].
  - reflexivity.
  - cbn [escape]. rewrite string_app_assoc, scanstring_escape_char, IH. reflexivity.
Qed.

Lemma skip_ws_indent (k : nat) (s : string) :
  skip_ws (indent k ++ s) = skip_ws s.
Proof. induction k as [|k IH]; [reflexivity|]. cbn. exact IH. Qed.

Lemma skip_ws_newline_indent (k : nat) (s : string) :
  skip_ws (newline_indent k ++ s) = skip_ws s.
Proof. unfold newline_indent. rewrite string_app_assoc. cbn. apply skip_ws_indent. Qed.

Lemma parse_value_string (f : nat) (s rest : string) :
  parse_value (S f) (encode_basestring s ++ rest) = Some (JStr s, rest).
Proof.
  unfold encode_basestring. cbn [String.append parse_value].
  change (Ascii.eqb dquote dquote) with true. cbv iota.
  rewrite string_app_assoc. cbn [String.append].
  now rewrite scanstring_escape.
Qed.

Lemma skip_ws_member_text (kv : string * string) (s : string) :
  skip_ws (member_text kv ++ s) = (member_text kv ++ s)%string.
Proof. reflexivity. Qed.

Lemma parse_members_step (fuel : nat) (r : string) :
  parse_members (S fuel) (String dquote r)
  = match scanstring r with
    | None => None
    | Some (k, rest) =>
        match skip_ws rest with
        | EmptyString => None
        | String colon r1 =>
            if Ascii.eqb colon ":" then
              match parse_value fuel (skip_ws r1) with
              | None => None
              | Some (v, rest1) =>
                  match skip_ws rest1 with
                  | EmptyString => None
                  | String c r2 =>
                      if Ascii.eqb c "," then
                        with_rest (cons (k, v)) (parse_members fuel (skip_ws r2))
                      else if Ascii.eqb c "}" then Some ([(k, v)], r2)
                      else None
                  end
              end
            else None
        end
    end.
Proof. reflexivity. Qed.

Lemma parse_member (fuel : nat) (kv : string * string) (tail : string) :
  parse_members (S (S fuel)) (member_text kv ++ tail)
  = match skip_ws tail with
    | EmptyString => None
    | String c r =>
        if Ascii.eqb c ","
        then with_rest (cons (fst kv, JStr (snd kv)))
               (parse_members (S fuel) (skip_ws r))
        else if Ascii.eqb c "}" then Some ([(fst kv, JStr (snd kv))], r)
        else None
    end.
Proof.
  unfold member_text, encode_basestring at 1.
  rewrite !string_app_assoc. cbn [String.append].
  rewrite parse_members_step, !string_app_assoc. cbn [String.append].
  rewrite scanstring_escape.
  change (skip_ws (String ":" ?x)) with (String ":" x).
  change (Ascii.eqb ":" ":") with true. cbv iota.
  change (skip_ws (String " " ?x)) with (skip_ws x).
  change (skip_ws (encode_basestring ?v ++ ?t)) with (encode_basestring v ++ t)%string.
  now rewrite parse_value_string.
Qed.

Lemma skip_ws_members (sep : string) (kv : string * string)
    (kvs : list (string * string)) (tail : string) :
  skip_ws (String.concat sep (map member_text (kv :: kvs)) ++ tail)
  = (String.concat sep (map member_text (kv :: kvs)) ++ tail)%string.
Proof. destruct kvs; reflexivity. Qed.

Lemma parse_members_strings (L : nat) (kvs : list (string * string)) :
  forall (kv : string * string) (fuel : nat) (tail rest : string),
    List.length kvs + 2 <= fuel ->
    skip_ws tail = String "}" rest ->
    parse_members fuel
      (String.concat ("," ++ newline_indent L) (map member_text (kv :: kvs)) ++ tail)
    = Some (map (fun kv => (fst kv, JStr (snd kv))) (kv :: kvs), rest).
Proof.
  induction kvs as [|kv' kvs IH]; intros kv fuel tail rest Hf Ht.
  - destruct fuel as [|[|fuel]]; try (cbn in Hf; lia).
    cbn [map String.concat]. rewrite parse_member, Ht. reflexivity.
  - destruct fuel as [|[|fuel]]; try (cbn in Hf; lia).
    change (map member_text (kv :: kv' :: kvs))
      with (member_text kv :: map member_text (kv' :: kvs)).
    change (String.concat ?sep (?x :: map member_text (kv' :: kvs)))
      with (x ++ sep ++ String.concat sep (map member_text (kv' :: kvs)))%string.
    rewrite !string_app_assoc. rewrite parse_member.
    cbn [String.append skip_ws]. change (is_ws ",") with false. cbv iota.
    change (Ascii.eqb "," ",") with true. cbv iota.
    rewrite skip_ws_newline_indent.
    rewrite skip_ws_members.
    assert (Hf' : List.length kvs + 2 <= S fuel) by (cbn in Hf; lia).
    pose proof (IH kv' (S fuel) tail rest Hf' Ht) as IH'.
    cbn [String.append] in IH'. rewrite IH'. reflexivity.
Qed.

Lemma encode_message (L : nat) (m : Message) :
  encode L (message_json m)
  = ("{" ++ newline_indent (S L)
     ++ String.concat ("," ++ newline_indent (S L)) (map member_text (message_members m))
     ++ newline_indent L ++ "}")%string.
Proof. reflexivity. Qed.

Lemma parse_value_object (f : nat) (r body : string) :
  skip_ws r = String dquote body ->
  parse_value (S f) (String "{" r) = with_rest JObj (parse_members f (String dquote body)).
Proof. intros H. cbn [parse_value]. cbn [Ascii.eqb Bool.eqb dquote]. rewrite H. reflexivity. Qed.

Lemma parse_value_array (f : nat) (r body : string) :
  skip_ws r = String "{" body ->
  parse_value (S f) (String "[" r) = with_rest JArr (parse_items f (String "{" body)).
Proof. intros H. cbn [parse_value]. cbn [Ascii.eqb Bool.eqb dquote]. rewrite H. reflexivity. Qed.

Lemma parse_items_step (f : nat) (s : string) :
  parse_items (S f) s
  = match parse_value f s with
    | None => None
    | Some (v, rest) =>
        match skip_ws rest with
        | EmptyString => None
        | String c r =>
            if Ascii.eqb c "," then with_rest (cons v) (parse_items f (skip_ws r))
            else if Ascii.eqb c "]" then Some ([v], r)
            else None
        end
    end.
Proof. reflexivity. Qed.

Lemma members_head (sep : string) (kv : string * string)
    (kvs : list (string * string)) (tail : string) :
  exists body,
    (String.concat sep (map member_text (kv :: kvs)) ++ tail)%string = String dquote body.
Proof. destruct kvs; eexists; reflexivity. Qed.

Lemma parse_message (L fuel : nat) (m : Message) (rest : string) :
  5 <= fuel ->
  parse_value fuel (encode L (message_json m) ++ rest) = Some (message_json m, rest).
Proof.
  intros Hf. destruct fuel as [|f]; [lia|].
  rewrite encode_message, !string_app_assoc. cbn [String.append].
  destruct (members_head ("," ++ newline_indent (S L)) ("role", role m)
              [("content", content m); ("time", time m)]
              (newline_indent L ++ String "}" rest)) as [body Hb].
  rewrite (@parse_value_object f _ body).
  - rewrite <- Hb.
    rewrite (@parse_members_strings (S L) _ _ f _ rest); [reflexivity | cbn; lia |].
    rewrite skip_ws_newline_indent. reflexivity.
  - rewrite skip_ws_newline_indent. unfold message_members.
    rewrite skip_ws_members. exact Hb.
Qed.

Lemma items_text_cons (m m' : Message) (ms : list Message) :
  items_text (m :: m' :: ms)
  = (encode 1 (message_json m) ++ ("," ++ newline_indent 1) ++ items_text (m' :: ms))%string.
Proof. reflexivity. Qed.

Lemma items_head (m : Message) (ms : list Message) (tail : string) :
  exists body, (items_text (m :: ms) ++ tail)%string = String "{" body.
Proof. destruct ms; eexists; reflexivity. Qed.

Lemma parse_items_messages (ms : list Message) :
  forall (m : Message) (fuel : nat) (rest : string),
    List.length ms + 6 <= fuel ->
    parse_items fuel (items_text (m :: ms) ++ newline_indent 0 ++ String "]" rest)
    = Some (map message_json (m :: ms), rest).
Proof.
  induction ms as [|m' ms IH]; intros m fuel rest Hf;
    (destruct fuel as [|f]; [cbn in Hf; lia|]); rewrite parse_items_step.
  - change (items_text [m]) with (encode 1 (message_json m)).
    rewrite parse_message by (cbn in Hf; lia).
    rewrite skip_ws_newline_indent. reflexivity.
  - rewrite items_text_cons, !string_app_assoc.
    rewrite parse_message by (cbn in Hf; lia).
    cbn [String.append skip_ws]. change (is_ws ",") with false. cbv iota.
    change (Ascii.eqb "," ",") with true. cbv iota.
    rewrite skip_ws_newline_indent.
    destruct (items_head m' ms (newline_indent 0 ++ String "]" rest)) as [body Hb].
    rewrite Hb. change (skip_ws (String "{" body)) with (String "{" body).
    rewrite <- Hb. rewrite IH by (cbn in Hf; lia). reflexivity.
Qed.

Lemma string_length_app (a b : string) :
  String.length (a ++ b) = String.length a + String.length b.
Proof. induction a; simpl; congruence. Qed.

Lemma length_encode_message (L : nat) (m : Message) :
  4 <= String.length (encode L (message_json m)).
Proof.
  rewrite encode_message. rewrite !string_length_app. cbn [String.length].
  unfold newline_indent. rewrite !string_length_app. cbn [String.length String.append nl].
  repeat match goal with
  | |- context [String.length ?x] => generalize (String.length x); intro
  end.
  lia.
Qed.

Lemma length_items_text (ms : list Message) :
  4 * List.length ms <= String.length (items_text ms).
Proof.
  induction ms as [|m ms IH]; [cbn; lia|].
  destruct ms as [|m' ms].
  - change (items_text [m]) with (encode 1 (message_json m)).
    pose proof (length_encode_message 1 m). cbn [List.length]. lia.
  - rewrite items_text_cons, !string_length_app.
    pose proof (length_encode_message 1 m). cbn [List.length] in *. lia.
Qed.

Lemma records_of_messages (ms : list Message) :
  records_of_json (map message_json ms) = Some ms.
Proof.
  induction ms as [|[r c t] ms IH]; [reflexivity|].
  cbn [map records_of_json]. rewrite IH. reflexivity.
Qed.

Lemma loads_dumps_chat (history : list Message) :
  loads (dumps (chat_json history)) = Some (chat_json history).
Proof.
  destruct history as [|m ms]; [reflexivity|].
  unfold loads, dumps, chat_json.
  assert (Htxt : encode 0 (JArr (map message_json (m :: ms)))
                 = String "[" (newline_indent 1 ++ items_text (m :: ms)
                               ++ newline_indent 0 ++ String "]" "")).
  { reflexivity. }
  rewrite Htxt. cbn [String.length].
  change (skip_ws (String "[" ?x)) with (String "[" x).
  destruct (items_head m ms (newline_indent 0 ++ String "]" "")) as [body Hb].
  rewrite (@parse_value_array _ _ body)
    by (now rewrite skip_ws_newline_indent, Hb).
  rewrite <- Hb. rewrite parse_items_messages; [reflexivity|].
  unfold newline_indent. rewrite !string_length_app.
  pose proof (length_items_text (m :: ms)) as Hlen. cbn [List.length] in Hlen.
  cbn [String.length indent nl String.append]. lia.
Qed.

(** C9.  Parsing the JSON export of a store gives back the store: the same
    records (role, content, time), in the same order. *)
Theorem json_export_round_trip (history : list Message) :
  parse_export (export_json history) = Some history.
Proof.
  unfold parse_export, export_json. rewrite loads_dumps_chat.
  apply records_of_messages.
Qed.

(** ** One run of the whole script

    The prelude of the script sets up what the send handler relies on: the
    chat is there, and so is the persona prompt. *)

Lemma prelude_initialises (w : widgets) (s : state) :
  exists s1,
    prelude w s = (Return tt, s1) /\
    chat s1 = Some (store_entering w s) /\
    persona_prompt s1 = Some (system_prompt w) /\
    clock_reads s1 = clock_reads s /\ calls s1 = calls s.
Proof.
  unfold prelude, store_entering, store.
  destruct (clear_clicked w), (chat s) as [h|] eqn:Hc;
    cbn; rewrite ?Hc; cbn; eexists; repeat split; eauto.
Qed.

Lemma script_accepted_send (ext : external) (w : widgets) (s : state) :
  send_clicked w = true -> sendable w ->
  exists u a s',
    script ext w s = (Rerun, s') /\
    store s' = store_entering w s ++ [u; a] /\
    role u = "user" /\ role a = "assistant".
Proof.
  intros Hc Hs.
  destruct (prelude_initialises w s) as (s1 & Hp & Hchat & _).
  assert (Hh : chat s1 <> None) by (rewrite Hchat; discriminate).
  destruct (@accepted_send_appends ext w s1 Hh Hc Hs)
    as (u & a & s' & Hrun & Hchat' & -> & ->).
  exists (user_turn ext w s1), (assistant_turn ext
    (fst (run_model ext (user_text w) (images w) (audio_source w)
            (awaiting_response ext w s1)))
    (set_clock_reads (S (clock_reads s1)) s1)), s'.
  split; [|split; [|split; reflexivity]].
  - unfold script, bind. rewrite Hp, Hrun. reflexivity.
  - unfold store at 1. rewrite Hchat'. unfold store. now rewrite Hchat.
Qed.

Lemma script_rejected_send (ext : external) (w : widgets) (s : state) :
  send_clicked w = true -> ~ sendable w ->
  exists s',
    script ext w s = (Return tt, s') /\ store s' = store_entering w s.
Proof.
  intros Hc Hn.
  destruct (prelude_initialises w s) as (s1 & Hp & Hchat & _).
  unfold script, bind. rewrite Hp, send_handler_rejected by assumption.
  unfold toolbar, bind, session_chat, st_show, modify, ret.
  destruct (download_txt_clicked w), (download_json_clicked w);
    cbn [chat set_screen]; rewrite ?Hchat; cbn [chat set_screen]; rewrite ?Hchat;
    eexists; (split; [reflexivity|]); unfold store; cbn [chat set_screen];
    now rewrite Hchat.
Qed.

(** ** Examples *)

Example hello_alone :
  parts_of (req_contents (request_of "secret" "persona" "hello" [] None))
  = [PText "hello"].
Proof. reflexivity. Qed.

Example second_tier :
  fst (run_model (Demo.world_answering Demo.candidate_only) "hi" [] None Demo.fresh)
  = Return "From the first part".
Proof. reflexivity. Qed.

Example third_tier :
  fst (run_model (Demo.world_answering Demo.no_candidates) "hi" [] None Demo.fresh)
  = Return "<GenerateContentResponse>".
Proof. reflexivity. Qed.

Example missing_key_turn :
  option_map (map content)
    (chat (snd (send_handler Demo.world_without_key
                  (Demo.compose "hi" [] None None) Demo.fresh)))
  = Some ["hi";
          "Error: Missing GOOGLE_API_KEY environment variable. Set it in your terminal."].
Proof. reflexivity. Qed.

Example cleared_export :
  export_json [] = "[]" /\ _format_history_for_download [] = "".
Proof. split; reflexivity. Qed.

(** * Further properties of the script *)

(** ** More about the Request Builder *)

(** X2.  The builder alone does return an empty list, but only when the text is
    empty and nothing is attached; it never has more than two parts besides
    the images. *)
Theorem parts_empty_only_without_input (text : string)
    (image_files : list UploadedFile) (audio_file : option UploadedFile) :
  (_make_parts_from_inputs text image_files audio_file = [] ->
   text = "" /\ image_files = [] /\ audio_file = None) /\
  _make_parts_from_inputs "" [] None = [] /\
  List.length (_make_parts_from_inputs text image_files audio_file)
  <= 2 + List.length image_files.
Proof.
  rewrite make_parts_closed_form. split; [|split].
  - destruct text; [|discriminate].
    destruct image_files; [|discriminate].
    destruct audio_file; [discriminate|]. auto.
  - reflexivity.
  - rewrite !length_app, length_map. destruct text, audio_file; cbn; lia.
Qed.
(** ** What a run of the script does to the session *)

Lemma script_idle (ext : external) (w : widgets) (s : state) :
  send_clicked w = false ->
  exists s',
    script ext w s = (Return tt, s') /\ store s' = store_entering w s.
Proof.
  intros Hc.
  destruct (prelude_initialises w s) as (s1 & Hp & Hchat & _).
  unfold script, bind, send_handler. rewrite Hp, Hc.
  unfold toolbar, bind, session_chat, st_show, modify, ret.
  destruct (download_txt_clicked w), (download_json_clicked w);
    cbn [chat set_screen]; rewrite ?Hchat; cbn [chat set_screen]; rewrite ?Hchat;
    eexists; (split; [reflexivity|]); unfold store; cbn [chat set_screen];
    now rewrite Hchat.
Qed.

Lemma sendable_dec (w : widgets) : {sendable w} + {~ sendable w}.
Proof.
  destruct (truthy (user_text w) || truthy (images w)
            || is_not_None (audio_upload w) || is_not_None (mic_audio w)) eqn:H.
  - left. now apply sendable_guard.
  - right. rewrite sendable_guard. congruence.
Qed.

(** One run either answers a send (two turns more, then a rerun) or leaves
    the store as the prelude made it. *)
Lemma script_cases (ext : external) (w : widgets) (s : state) :
  (send_clicked w = true /\ sendable w /\
   exists u a s',
     script ext w s = (Rerun, s') /\
     store s' = store_entering w s ++ [u; a] /\
     role u = "user" /\ role a = "assistant")
  \/
  ((send_clicked w = false \/ ~ sendable w) /\
   exists s',
     script ext w s = (Return tt, s') /\ store s' = store_entering w s).
Proof.
  destruct (send_clicked w) eqn:Hc.
  - destruct (sendable_dec w) as [Hs|Hn].
    + left. split; [reflexivity|]. split; [assumption|].
      now apply script_accepted_send.
    + right. split; [now right|]. now apply script_rejected_send.
  - right. split; [now left|]. now apply script_idle.
Qed.

(** X3.  A run of the script never ends with an uncaught exception: it returns,
    or it asks for the rerun that ends an accepted send. *)
Theorem script_never_raises (ext : external) (w : widgets) (s : state) :
  exists s',
    script ext w s = (Return tt, s') \/ script ext w s = (Rerun, s').
Proof.
  destruct (script_cases ext w s)
    as [(_ & _ & u & a & s' & Hrun & _)|(_ & s' & Hrun & _)];
    exists s'; [now right|now left].
Qed.

Lemma paired_app (l1 l2 : list Message) :
  paired l1 -> paired l2 -> paired (l1 ++ l2).
Proof.
  intros H1 H2.
  assert (H : forall n l, List.length l <= n -> paired l -> paired (l ++ l2)).
  { induction n as [|n IH]; intros l Hn Hl.
    - destruct l; [exact H2|cbn in Hn; lia].
    - destruct l as [|u [|a l]]; [exact H2|contradiction|].
      destruct Hl as (Hu & Ha & Hl). cbn. repeat split; try assumption.
      apply IH; [cbn in Hn; lia|assumption]. }
  now apply (H (List.length l1)).
Qed.

Lemma script_keeps_pairs (ext : external) (w : widgets) (s : state) :
  paired (store s) -> paired (store (snd (script ext w s))).
Proof.
  intros Hp.
  assert (He : paired (store_entering w s)).
  { unfold store_entering. destruct (clear_clicked w); [exact I|exact Hp]. }
  destruct (script_cases ext w s)
    as [(_ & _ & u & a & s' & Hrun & Hst & Hu & Ha)|(_ & s' & Hrun & Hst)];
    rewrite Hrun; cbn [snd]; rewrite Hst.
  - apply paired_app; [exact He|]. cbn. auto.
  - exact He.
Qed.

(** X4.  Whatever runs a session goes through, its chat is made of whole
    exchanges: a user turn, then an assistant turn. *)
Theorem session_keeps_pairs (ext : external) (ws : list widgets) :
  paired (store (run_session ext ws new_session)).
Proof.
  assert (H : forall s, paired (store s) -> paired (store (run_session ext ws s))).
  { induction ws as [|w ws IH]; intros s Hp; [exact Hp|].
    cbn [run_session]. apply IH. now apply script_keeps_pairs. }
  apply H. exact I.
Qed.

(** X5.  A run only ever appends: the chat after it is the chat before it (the
    empty chat after Clear) followed by nothing, or by the user and
    assistant turns of an accepted send. *)
Theorem script_store_growth (ext : external) (w : widgets) (s : state) :
  exists suffix,
    store (snd (script ext w s))
    = (if clear_clicked w then [] else store s) ++ suffix /\
    (suffix = [] \/
     send_clicked w = true /\ sendable w /\
     exists u a, suffix = [u; a] /\ role u = "user" /\ role a = "assistant").
Proof.
  destruct (script_cases ext w s)
    as [(Hc & Hs & u & a & s' & Hrun & Hst & Hu & Ha)|(_ & s' & Hrun & Hst)];
    rewrite Hrun; cbn [snd]; rewrite Hst; unfold store_entering.
  - exists [u; a]. split; [reflexivity|]. right. repeat split; try assumption.
    now exists u, a.
  - exists []. split; [now rewrite app_nil_r|now left].
Qed.

(** ** More about [run_model] *)

(** X6.  [run_model] leaves chat, persona prompt, clock and screen alone, ends by
    returning or raising, and makes at most one call to the provider. *)
Theorem run_model_touches_only_the_provider (ext : external) (text : string)
    (image_files : list UploadedFile) (audio_file : option UploadedFile) (s : state) :
  let rs := run_model ext text image_files audio_file s in
  chat (snd rs) = chat s /\ persona_prompt (snd rs) = persona_prompt s /\
  clock_reads (snd rs) = clock_reads s /\ screen (snd rs) = screen s /\
  ((exists t, fst rs = Return t) \/ (exists e, fst rs = Raise e)) /\
  exists new, calls (snd rs) = calls s ++ new /\ List.length new <= 1.
Proof.
  intros rs.
  assert (Hout : (exists t, fst rs = Return t) \/ (exists e, fst rs = Raise e)).
  { destruct (run_model_frame ext text image_files audio_file s) as (_ & _ & _ & Hn).
    fold rs in Hn. destruct (fst rs) as [t|e|]; [left; now exists t|right; now exists e|].
    congruence. }
  revert Hout. subst rs. intros Hout.
  cut (chat (snd (run_model ext text image_files audio_file s)) = chat s /\
       persona_prompt (snd (run_model ext text image_files audio_file s)) = persona_prompt s /\
       clock_reads (snd (run_model ext text image_files audio_file s)) = clock_reads s /\
       screen (snd (run_model ext text image_files audio_file s)) = screen s /\
       fst (run_model ext text image_files audio_file s) <> Rerun /\
       exists new, calls (snd (run_model ext text image_files audio_file s)) = calls s ++ new
                   /\ List.length new <= 1); [tauto|].
  clear Hout. rewrite run_model_eq.
  assert (Hnone : forall (o : outcome string) (s' : state),
            o <> Rerun -> chat s' = chat s -> persona_prompt s' = persona_prompt s ->
            clock_reads s' = clock_reads s -> screen s' = screen s ->
            (exists new, calls s' = calls s ++ new /\ List.length new <= 1) ->
            chat (snd (o, s')) = chat s /\ persona_prompt (snd (o, s')) = persona_prompt s /\
            clock_reads (snd (o, s')) = clock_reads s /\ screen (snd (o, s')) = screen s /\
            fst (o, s') <> Rerun /\
            exists new, calls (snd (o, s')) = calls s ++ new /\ List.length new <= 1).
  { intros o s' H1 H2 H3 H4 H5 H6. cbn [fst snd]. tauto. }
  assert (Hsame : exists new, calls s = calls s ++ new /\ List.length new <= 1).
  { exists []. rewrite app_nil_r. cbn. split; [reflexivity|lia]. }
  destruct (environ ext "GOOGLE_API_KEY") as [[|c k]|];
    try (apply Hnone; [discriminate|reflexivity..|exact Hsame]).
  cbv zeta. destruct (persona_prompt s) as [persona|] eqn:Hp.
  - destruct (provider ext (calls s) _); apply Hnone; cbn; try congruence;
      try apply extraction_outcome_not_rerun;
      eexists; (split; [reflexivity|cbn; lia]).
  - apply Hnone; cbn; try congruence; try exact Hsame.
Qed.

(** X7.  An empty [GOOGLE_API_KEY] is refused like a missing one, with the state
    unchanged. *)
Theorem empty_key_counts_as_missing (ext : external) (text : string)
    (image_files : list UploadedFile) (audio_file : option UploadedFile) (s : state) :
  environ ext "GOOGLE_API_KEY" = Some "" ->
  run_model ext text image_files audio_file s = (Raise missing_key_error, s).
Proof. intros Hk. rewrite run_model_eq, Hk. reflexivity. Qed.

Lemma provider_error_passes_through (ext : external) (text : string)
    (image_files : list UploadedFile) (audio_file : option UploadedFile)
    (s : state) (key persona : string) (e : exn) :
  environ ext "GOOGLE_API_KEY" = Some key -> key <> "" ->
  persona_prompt s = Some persona ->
  provider ext (calls s) (request_of key persona text image_files audio_file) = inl e ->
  fst (run_model ext text image_files audio_file s) = Raise e /\
  calls (snd (run_model ext text image_files audio_file s))
  = calls s ++ [request_of key persona text image_files audio_file] /\
  configured_key (snd (run_model ext text image_files audio_file s)) = Some key.
Proof.
  intros Hk Hne Hp He. rewrite run_model_eq, Hk.
  destruct key as [|c k]; [congruence|]. rewrite Hp. cbv zeta. rewrite He.
  repeat split.
Qed.

(** X8.  The request carries the key of the environment, the persona prompt, the
    fixed generation settings, and a text that is not empty as its first
    part, as typed. *)
Theorem request_carries_settings (ext : external) (text : string)
    (image_files : list UploadedFile) (audio_file : option UploadedFile)
    (s : state) (key persona : string) :
  environ ext "GOOGLE_API_KEY" = Some key -> key <> "" ->
  persona_prompt s = Some persona ->
  exists req,
    calls (snd (run_model ext text image_files audio_file s)) = calls s ++ [req] /\
    req_api_key req = Some key /\
    system_instruction (req_model req) = persona /\
    temperature (generation_config (req_model req)) = (9 # 10)%Q /\
    top_p (generation_config (req_model req)) = (95 # 100)%Q /\
    max_output_tokens (generation_config (req_model req)) = 512 /\
    (text <> "" -> nth_error (parts_of (req_contents req)) 0 = Some (PText text)).
Proof.
  intros Hk Hne Hp.
  exists (request_of key persona text image_files audio_file). split.
  - now apply run_model_sends.
  - repeat split. intros Ht. cbn [request_of req_contents].
    destruct (has_attachment image_files audio_file); cbn [parts_of].
    + rewrite make_parts_closed_form. destruct text; [congruence|reflexivity].
    + destruct text; [congruence|reflexivity].
Qed.

(** ** More about the send handler *)

Lemma awaiting_response_frame (ext : external) (w : widgets) (s : state) :
  persona_prompt (awaiting_response ext w s) = persona_prompt s /\
  calls (awaiting_response ext w s) = calls s /\
  configured_key (awaiting_response ext w s) = configured_key s /\
  clock_reads (awaiting_response ext w s) = S (clock_reads s).
Proof. repeat split. Qed.

Lemma extraction_outcome_value (r : Response) :
  (forall e, resp_text r = inl e -> exn_class e = "AttributeError") ->
  extraction_outcome r = Return (three_tier_text r).
Proof.
  intros H. unfold extraction_outcome.
  destruct (resp_text r) as [e|v]; [|reflexivity].
  unfold is_AttributeError. now rewrite (H e eq_refl).
Qed.

Lemma extraction_outcome_raise (r : Response) (e : exn) :
  resp_text r = inl e -> exn_class e <> "AttributeError" ->
  extraction_outcome r = Raise e.
Proof.
  intros He Hc. unfold extraction_outcome, is_AttributeError. rewrite He.
  apply String.eqb_neq in Hc. now rewrite Hc.
Qed.

Lemma run_model_answer (ext : external) (w : widgets) (s : state)
    (key persona : string) (r : Response) :
  environ ext "GOOGLE_API_KEY" = Some key -> key <> "" ->
  persona_prompt s = Some persona ->
  provider ext (calls s)
    (request_of key persona (user_text w) (images w) (audio_source w)) = inr r ->
  fst (run_model ext (user_text w) (images w) (audio_source w)
         (awaiting_response ext w s))
  = extraction_outcome r.
Proof.
  intros Hk Hne Hp Hr. rewrite run_model_eq, Hk.
  destruct key as [|c k]; [congruence|].
  destruct (awaiting_response_frame ext w s) as (-> & -> & _).
  rewrite Hp. cbv zeta. now rewrite Hr.
Qed.

(** X9.  The text extracted from the provider's answer is what the assistant's
    turn holds. *)
Theorem answer_becomes_assistant_turn (ext : external) (w : widgets) (s : state)
    (key persona : string) (r : Response) :
  chat s <> None -> send_clicked w = true -> sendable w ->
  environ ext "GOOGLE_API_KEY" = Some key -> key <> "" ->
  persona_prompt s = Some persona ->
  provider ext (calls s)
    (request_of key persona (user_text w) (images w) (audio_source w)) = inr r ->
  (forall e, resp_text r = inl e -> exn_class e = "AttributeError") ->
  exists u a s',
    send_handler ext w s = (Rerun, s') /\
    chat s' = Some (store s ++ [u; a]) /\
    role a = "assistant" /\ content a = three_tier_text r.
Proof.
  intros Hh Hc Hs Hk Hne Hp Hr Hread.
  destruct (@accepted_send_appends ext w s Hh Hc Hs) as (u & a & s' & Hrun & Hchat & -> & ->).
  do 3 eexists. split; [exact Hrun|]. split; [exact Hchat|]. split; [reflexivity|].
  cbn [assistant_turn content].
  rewrite (@run_model_answer ext w s key persona r Hk Hne Hp Hr).
  now rewrite extraction_outcome_value.
Qed.

(** X10.  When the read of [response.text] raises, the send still completes: the
    assistant's turn is the error turn for that exception. *)
Theorem reply_read_error_shown_in_chat (ext : external) (w : widgets) (s : state)
    (key persona : string) (r : Response) (e : exn) :
  chat s <> None -> send_clicked w = true -> sendable w ->
  environ ext "GOOGLE_API_KEY" = Some key -> key <> "" ->
  persona_prompt s = Some persona ->
  provider ext (calls s)
    (request_of key persona (user_text w) (images w) (audio_source w)) = inr r ->
  resp_text r = inl e -> exn_class e <> "AttributeError" ->
  exists u a s',
    send_handler ext w s = (Rerun, s') /\
    chat s' = Some (store s ++ [u; a]) /\
    role a = "assistant" /\ content a = ("Error: " ++ exn_str e)%string.
Proof.
  intros Hh Hc Hs Hk Hne Hp Hr He Hclass.
  destruct (@accepted_send_appends ext w s Hh Hc Hs) as (u & a & s' & Hrun & Hchat & -> & ->).
  do 3 eexists. split; [exact Hrun|]. split; [exact Hchat|]. split; [reflexivity|].
  cbn [assistant_turn content].
  rewrite (@run_model_answer ext w s key persona r Hk Hne Hp Hr).
  now rewrite (@extraction_outcome_raise r e He Hclass).
Qed.

(** X11.  When the provider call raises [e], the assistant's turn reads
    ["Error: "] and [str(e)], and the failed request is the one call made. *)
Theorem provider_error_shown_in_chat (ext : external) (w : widgets) (s : state)
    (key persona : string) (e : exn) :
  chat s <> None -> send_clicked w = true -> sendable w ->
  environ ext "GOOGLE_API_KEY" = Some key -> key <> "" ->
  persona_prompt s = Some persona ->
  provider ext (calls s)
    (request_of key persona (user_text w) (images w) (audio_source w)) = inl e ->
  exists u a s',
    send_handler ext w s = (Rerun, s') /\
    chat s' = Some (store s ++ [u; a]) /\
    content a = ("Error: " ++ exn_str e)%string /\
    calls s' = calls s ++ [request_of key persona (user_text w) (images w) (audio_source w)].
Proof.
  intros Hh Hc Hs Hk Hne Hp He.
  destruct (@accepted_send_appends ext w s Hh Hc Hs) as (u & a & s' & Hrun & Hchat & -> & ->).
  do 3 eexists. split; [exact Hrun|]. split; [exact Hchat|].
  destruct (awaiting_response_frame ext w s) as (Hp' & Hc' & _).
  assert (Hp2 : persona_prompt (awaiting_response ext w s) = Some persona)
    by (now rewrite Hp').
  rewrite <- Hc' in He.
  destruct (@provider_error_passes_through ext (user_text w) (images w) (audio_source w)
              (awaiting_response ext w s) key persona e Hk Hne Hp2 He) as (Hf & _).
  split.
  - cbn [assistant_turn content]. now rewrite Hf.
  - pose proof (@send_handler_calls ext w s key persona Hh Hc Hs Hk Hne Hp) as Hcalls.
    now rewrite Hrun in Hcalls.
Qed.

(** X12.  Without a usable key a send still yields its two turns, the second
    being the missing-key message, and nothing is sent to the provider. *)
Theorem send_without_key (ext : external) (w : widgets) (s : state) :
  chat s <> None -> send_clicked w = true -> sendable w ->
  truthy (environ ext "GOOGLE_API_KEY") = false ->
  exists u a s',
    send_handler ext w s = (Rerun, s') /\
    chat s' = Some (store s ++ [u; a]) /\
    content a = "Error: Missing GOOGLE_API_KEY environment variable. Set it in your terminal." /\
    calls s' = calls s /\ configured_key s' = configured_key s.
Proof.
  intros Hh Hc Hs Hk.
  assert (Hrm : run_model ext (user_text w) (images w) (audio_source w)
                  (awaiting_response ext w s)
                = (Raise missing_key_error, awaiting_response ext w s)).
  { rewrite run_model_eq.
    destruct (environ ext "GOOGLE_API_KEY") as [[|c k]|]; try reflexivity; discriminate. }
  rewrite send_handler_accepted by assumption. cbv zeta. rewrite Hrm.
  do 3 eexists. split; [reflexivity|]. repeat split.
Qed.

(** X13.  Without a click on Send, or with nothing to send, the handler costs
    nothing: no clock read, no key lookup, no call. *)
Theorem no_send_no_cost (ext : external) (w : widgets) (s : state) :
  send_clicked w = false \/ ~ sendable w ->
  let s' := snd (send_handler ext w s) in
  chat s' = chat s /\ calls s' = calls s /\ clock_reads s' = clock_reads s /\
  configured_key s' = configured_key s.
Proof.
  intros H. destruct (send_clicked w) eqn:Hc.
  - destruct H as [H|H]; [discriminate|].
    rewrite send_handler_rejected by assumption. repeat split.
  - unfold send_handler. rewrite Hc. repeat split.
Qed.


Lemma preview_text_depends (w1 w2 : widgets) :
  user_text w1 = user_text w2 ->
  List.length (images w1) = List.length (images w2) ->
  is_not_None (audio_upload w1) || is_not_None (mic_audio w1)
  = is_not_None (audio_upload w2) || is_not_None (mic_audio w2) ->
  preview_text w1 = preview_text w2.
Proof.
  intros Ht Hl Ha. unfold preview_text. rewrite Ht, Hl.
  destruct (images w1), (images w2); try discriminate Hl;
  destruct (audio_upload w1), (mic_audio w1), (audio_upload w2), (mic_audio w2);
    try discriminate Ha; reflexivity.
Qed.

(** X15.  The user's turn records the text, how many images and whether audio
    was attached, never the files: sends that agree on those store the
    same turn. *)
Theorem attachments_not_retained (ext : external) (w1 w2 : widgets) (s : state) :
  chat s <> None -> send_clicked w1 = true -> send_clicked w2 = true ->
  sendable w1 ->
  user_text w1 = user_text w2 ->
  List.length (images w1) = List.length (images w2) ->
  is_not_None (audio_upload w1) || is_not_None (mic_audio w1)
  = is_not_None (audio_upload w2) || is_not_None (mic_audio w2) ->
  exists u,
    role u = "user" /\
    nth_error (store (snd (send_handler ext w1 s))) (List.length (store s)) = Some u /\
    nth_error (store (snd (send_handler ext w2 s))) (List.length (store s)) = Some u.
Proof.
  intros Hh Hc1 Hc2 Hs1 Ht Hl Ha.
  assert (Hs2 : sendable w2).
  { apply sendable_guard. apply sendable_guard in Hs1.
    rewrite <- Ht. rewrite <- !orb_assoc in *. rewrite <- Ha.
    destruct (images w1), (images w2); try discriminate Hl; exact Hs1. }
  destruct (@accepted_send_appends ext w1 s Hh Hc1 Hs1) as (u1 & a1 & s1 & Hr1 & Hch1 & -> & _).
  destruct (@accepted_send_appends ext w2 s Hh Hc2 Hs2) as (u2 & a2 & s2 & Hr2 & Hch2 & -> & _).
  exists (user_turn ext w1 s). split; [reflexivity|].
  rewrite Hr1, Hr2. cbn [snd]. unfold store at 1 3. rewrite Hch1, Hch2.
  rewrite !nth_error_app2, Nat.sub_diag by lia. cbn [nth_error].
  split; [reflexivity|]. unfold user_turn.
  now rewrite (preview_text_depends w1 w2 Ht Hl Ha).
Qed.

Lemma drop_leading_spaces (n fuel : nat) :
  n <= fuel ->
  drop_leading whitespace fuel (list_byte_of_string (spaces n)) = [].
Proof.
  revert fuel; induction n as [|n IH]; intros fuel Hf.
  - destruct fuel; reflexivity.
  - destruct fuel as [|fuel]; [lia|].
    change (list_byte_of_string (spaces (S n)))
      with (x20 :: list_byte_of_string (spaces n)).
    cbn [drop_leading].
    change (drop_any whitespace (x20 :: ?r)) with (Some r).
    apply IH. lia.
Qed.

Lemma length_bytes_spaces (n : nat) :
  List.length (list_byte_of_string (spaces n)) = n.
Proof.
  induction n as [|n IH]; [reflexivity|].
  change (list_byte_of_string (spaces (S n)))
    with (x20 :: list_byte_of_string (spaces n)).
  cbn [List.length]. now rewrite IH.
Qed.

Lemma strip_spaces (n : nat) : strip (spaces n) = "".
Proof.
  unfold strip. rewrite length_bytes_spaces, drop_leading_spaces by lia.
  reflexivity.
Qed.

(** X16.  A text of spaces only is accepted: the stored turn is empty, the
    request carries the spaces. *)
Theorem blank_text_is_sent (ext : external) (w : widgets) (s : state) (n : nat) :
  chat s <> None -> send_clicked w = true ->
  user_text w = spaces (S n) -> images w = [] ->
  audio_upload w = None -> mic_audio w = None ->
  exists u a s',
    send_handler ext w s = (Rerun, s') /\
    chat s' = Some (store s ++ [u; a]) /\
    role u = "user" /\ content u = "" /\
    (forall key persona,
       environ ext "GOOGLE_API_KEY" = Some key -> key <> "" ->
       persona_prompt s = Some persona ->
       exists req,
         calls s' = calls s ++ [req] /\ req_contents req = CStr (spaces (S n))).
Proof.
  intros Hh Hc Ht Hi Hu Hm.
  assert (Hs : sendable w) by (left; rewrite Ht; discriminate).
  destruct (@accepted_send_appends ext w s Hh Hc Hs) as (u & a & s' & Hrun & Hchat & -> & _).
  exists (user_turn ext w s), a, s'.
  split; [exact Hrun|]. split; [exact Hchat|]. split; [reflexivity|]. split.
  - cbn [user_turn content]. unfold preview_text. rewrite Ht, Hi, Hu, Hm.
    rewrite !string_app_nil_r. apply strip_spaces.
  - intros key persona Hk Hne Hp.
    pose proof (@send_handler_calls ext w s key persona Hh Hc Hs Hk Hne Hp) as Hcalls.
    rewrite Hrun in Hcalls. cbn [snd] in Hcalls.
    eexists. split; [exact Hcalls|].
    unfold audio_source. rewrite Hm, Hu, Hi, Ht. reflexivity.
Qed.

Lemma run_model_keeps_persona (ext : external) (text : string)
    (image_files : list UploadedFile) (audio_file : option UploadedFile) (s : state) :
  persona_prompt (snd (run_model ext text image_files audio_file s)) = persona_prompt s.
Proof.
  rewrite run_model_eq.
  destruct (environ ext "GOOGLE_API_KEY") as [[|c k]|]; try reflexivity.
  cbv zeta. destruct (persona_prompt s) as [p|] eqn:Hp; [|cbn; congruence].
  destruct (provider ext (calls s) _); cbn; congruence.
Qed.

(** X17.  The system instruction of a request is the text area's content of that
    very run. *)
Theorem live_prompt_is_sent (ext : external) (w : widgets) (s : state) (key : string) :
  send_clicked w = true -> sendable w ->
  environ ext "GOOGLE_API_KEY" = Some key -> key <> "" ->
  exists req,
    calls (snd (script ext w s)) = calls s ++ [req] /\
    system_instruction (req_model req) = system_prompt w /\
    persona_prompt (snd (script ext w s)) = Some (system_prompt w).
Proof.
  intros Hc Hs Hk Hne.
  destruct (prelude_initialises w s) as (s1 & Hp & Hchat & Hper & _ & Hcalls).
  assert (Hh : chat s1 <> None) by (rewrite Hchat; discriminate).
  pose proof (@send_handler_calls ext w s1 key (system_prompt w) Hh Hc Hs Hk Hne Hper) as Hsent.
  destruct (@accepted_send_appends ext w s1 Hh Hc Hs) as (u & a & s' & Hrun & _).
  assert (Hscript : script ext w s = (Rerun, s')).
  { unfold script, bind. now rewrite Hp, Hrun. }
  rewrite Hscript. cbn [snd]. rewrite Hrun in Hsent. cbn [snd] in Hsent.
  eexists. split; [rewrite Hsent, Hcalls; reflexivity|]. split; [reflexivity|].
  rewrite send_handler_accepted in Hrun by assumption. cbv zeta in Hrun.
  injection Hrun as <-. cbn [persona_prompt set_chat set_clock_reads].
  rewrite run_model_keeps_persona. exact Hper.
Qed.

(** ** The stored text is stripped *)

Lemma drop_prefix_Some (p s r : list byte) :
  drop_prefix p s = Some r <-> s = p ++ r.
Proof.
  revert s; induction p as [|a p IH]; intros s; cbn.
  - split; congruence.
  - destruct s as [|b s]; [split; discriminate|].
    destruct (Byte.eqb a b) eqn:E.
    + apply Byte.byte_dec_bl in E as ->. rewrite IH. split; congruence.
    + apply Byte.eqb_false in E. split; [discriminate|congruence].
Qed.

Lemma drop_any_Some (ps : list (list byte)) (s r : list byte) :
  drop_any ps s = Some r -> exists p, In p ps /\ s = p ++ r.
Proof.
  induction ps as [|p ps IH]; cbn; [discriminate|].
  destruct (drop_prefix p s) as [r'|] eqn:E.
  - intros [= <-]. exists p. split; [now left|]. now apply drop_prefix_Some.
  - intros H. destruct (IH H) as (q & Hq & Hs). exists q. split; [now right|assumption].
Qed.

Lemma drop_any_None (ps : list (list byte)) (s : list byte) :
  drop_any ps s = None -> forall p r, In p ps -> s <> p ++ r.
Proof.
  induction ps as [|q ps IH]; cbn; [intros _ p r []|].
  destruct (drop_prefix q s) as [r'|] eqn:E; [discriminate|].
  intros H p r [<-|Hp] Hs.
  - apply drop_prefix_Some in Hs. congruence.
  - exact (IH H p r Hp Hs).
Qed.

Lemma drop_leading_rest (ps : list (list byte)) (fuel : nat) (s : list byte) :
  exists pre, s = pre ++ drop_leading ps fuel s.
Proof.
  revert s; induction fuel as [|fuel IH]; intros s; cbn.
  - now exists [].
  - destruct (drop_any ps s) as [r|] eqn:E; [|now exists []].
    destruct (@drop_any_Some _ _ _ E) as (p & _ & ->).
    destruct (IH r) as (pre & Hr). exists (p ++ pre).
    rewrite <- app_assoc. now rewrite <- Hr.
Qed.

Lemma drop_leading_done (ps : list (list byte)) (fuel : nat) (s : list byte) :
  (forall p, In p ps -> p <> []) -> List.length s <= fuel ->
  drop_any ps (drop_leading ps fuel s) = None.
Proof.
  intros Hne. revert s; induction fuel as [|fuel IH]; intros s Hf; cbn.
  - destruct s; [|cbn in Hf; lia].
    destruct (drop_any ps []) as [r|] eqn:E; [|reflexivity].
    destruct (@drop_any_Some _ _ _ E) as (p & Hp & Hs).
    destruct p; [now apply Hne in Hp|discriminate].
  - destruct (drop_any ps s) as [r|] eqn:E; [|exact E].
    apply IH. destruct (@drop_any_Some _ _ _ E) as (p & Hp & ->).
    rewrite length_app in Hf. destruct p; [now apply Hne in Hp|cbn in Hf; lia].
Qed.

Lemma whitespace_nonempty (p : list byte) : In p whitespace -> p <> [].
Proof.
  intros H ->. cbn in H. repeat (destruct H as [H|H]; [discriminate H|]). exact H.
Qed.

Lemma rev_whitespace_nonempty (p : list byte) :
  In p (map (@rev byte) whitespace) -> p <> [].
Proof.
  intros H ->. cbn in H. repeat (destruct H as [H|H]; [discriminate H|]). exact H.
Qed.

Lemma strip_has_no_blank_ends (s : string) (p r : list byte) :
  In p whitespace ->
  list_byte_of_string (strip s) <> p ++ r /\
  list_byte_of_string (strip s) <> r ++ p.
Proof.
  intros Hp. unfold strip. rewrite list_byte_of_string_of_list_byte.
  set (b := list_byte_of_string s).
  set (b1 := drop_leading whitespace (List.length b) b).
  set (b2 := drop_leading (map (@rev byte) whitespace) (List.length b1) (rev b1)).
  assert (H1 : drop_any whitespace b1 = None)
    by (apply drop_leading_done; [exact whitespace_nonempty|lia]).
  assert (H2 : drop_any (map (@rev byte) whitespace) b2 = None).
  { apply drop_leading_done; [exact rev_whitespace_nonempty|].
    now rewrite length_rev. }
  destruct (drop_leading_rest (map (@rev byte) whitespace) (List.length b1) (rev b1))
    as (pre & Hpre). fold b2 in Hpre.
  split; intros Heq.
  - apply (@drop_any_None _ _ H1 p (r ++ rev pre) Hp).
    rewrite <- (rev_involutive b1), Hpre, rev_app_distr, Heq.
    now rewrite <- app_assoc.
  - apply (@drop_any_None _ _ H2 (rev p) (rev r)).
    + now apply in_map.
    + rewrite <- (rev_involutive b2), Heq, rev_app_distr. reflexivity.
Qed.

(** X18.  The stored user text neither begins nor ends with white space. *)
Theorem stored_text_is_stripped (ext : external) (w : widgets) (s : state) :
  chat s <> None -> send_clicked w = true -> sendable w ->
  exists u a s',
    send_handler ext w s = (Rerun, s') /\
    chat s' = Some (store s ++ [u; a]) /\
    forall p r, In p whitespace ->
      list_byte_of_string (content u) <> p ++ r /\
      list_byte_of_string (content u) <> r ++ p.
Proof.
  intros Hh Hc Hs.
  destruct (@accepted_send_appends ext w s Hh Hc Hs) as (u & a & s' & Hrun & Hchat & -> & _).
  exists (user_turn ext w s), a, s'.
  split; [exact Hrun|]. split; [exact Hchat|].
  intros p r Hp. cbn [user_turn content]. now apply strip_has_no_blank_ends.
Qed.

(** ** The exports *)

Lemma fold_append_lines (history : list Message) (acc : list string) :
  fold_left
    (fun lines h =>
       let t := time h in
       append lines ("[" ++ t ++ "] " ++ upper (role h) ++ ": " ++ content h)%string)
    history acc
  = acc ++ map history_line history.
Proof.
  revert acc; induction history as [|h hs IH]; intros acc; cbn [fold_left map].
  - now rewrite app_nil_r.
  - rewrite IH. unfold append. now rewrite <- app_assoc.
Qed.

Lemma format_history_lines (history : list Message) :
  _format_history_for_download history
  = String.concat nl (map history_line history).
Proof. unfold _format_history_for_download. now rewrite fold_append_lines. Qed.

Lemma concat_app (sep : string) (l1 l2 : list string) :
  l1 <> [] -> l2 <> [] ->
  String.concat sep (l1 ++ l2)
  = (String.concat sep l1 ++ sep ++ String.concat sep l2)%string.
Proof.
  intros H1 H2. induction l1 as [|x l1 IH]; [congruence|].
  destruct l1 as [|y l1].
  - destruct l2; [congruence|]. reflexivity.
  - change (String.concat sep ((x :: y :: l1) ++ l2))
      with (x ++ sep ++ String.concat sep ((y :: l1) ++ l2))%string.
    rewrite IH by discriminate.
    change (String.concat sep (x :: y :: l1))
      with (x ++ sep ++ String.concat sep (y :: l1))%string.
    now rewrite !string_app_assoc.
Qed.

Lemma format_history_app (h1 h2 : list Message) :
  h1 <> [] -> h2 <> [] ->
  _format_history_for_download (h1 ++ h2)
  = (_format_history_for_download h1 ++ nl ++ _format_history_for_download h2)%string.
Proof.
  intros H1 H2. rewrite !format_history_lines, map_app.
  apply concat_app; destruct h1, h2; cbn; congruence.
Qed.

(** X19.  The plain-text export of a history in two parts is the two exports
    with a newline between. *)
Theorem text_export_composes (h1 h2 : list Message) :
  h1 <> [] -> h2 <> [] ->
  _format_history_for_download (h1 ++ h2)
  = (_format_history_for_download h1 ++ nl ++ _format_history_for_download h2)%string.
Proof.
  intros H1 H2. rewrite !format_history_lines, map_app.
  apply concat_app; destruct h1, h2; cbn; congruence.
Qed.

(** X20.  A send adds two lines to the plain-text export, one headed USER and
    one headed ASSISTANT. *)
Theorem text_export_after_send (ext : external) (w : widgets) (s : state) :
  chat s <> None -> send_clicked w = true -> sendable w ->
  exists u a s',
    send_handler ext w s = (Rerun, s') /\
    chat s' = Some (store s ++ [u; a]) /\
    _format_history_for_download (store s')
    = ((match store s with
        | [] => ""
        | _ :: _ => _format_history_for_download (store s) ++ nl
        end)
       ++ "[" ++ time u ++ "] USER: " ++ content u ++ nl
       ++ "[" ++ time a ++ "] ASSISTANT: " ++ content a)%string.
Proof.
  intros Hh Hc Hs.
  destruct (@accepted_send_appends ext w s Hh Hc Hs) as (u & a & s' & Hrun & Hchat & Hu & Ha).
  exists u, a, s'. split; [exact Hrun|]. split; [exact Hchat|].
  unfold store at 1. rewrite Hchat.
  assert (Hpair : _format_history_for_download [u; a]
                  = ("[" ++ time u ++ "] USER: " ++ content u ++ nl
                     ++ "[" ++ time a ++ "] ASSISTANT: " ++ content a)%string).
  { rewrite format_history_lines. subst u a. cbn [map String.concat].
    unfold history_line. cbn [role user_turn assistant_turn].
    change (upper "user") with "USER". change (upper "assistant") with "ASSISTANT".
    rewrite !string_app_assoc. reflexivity. }
  destruct (store s) as [|m ms] eqn:Hst.
  - cbn [app]. rewrite Hpair. reflexivity.
  - rewrite format_history_app by discriminate. rewrite Hpair.
    now rewrite !string_app_assoc.
Qed.

(** X21.  The plain-text export cannot be read back: two different chats have
    the same export. *)
Theorem text_export_is_ambiguous :
  one_turn_two_lines <> two_turns /\
  _format_history_for_download one_turn_two_lines
  = _format_history_for_download two_turns.
Proof. split; [discriminate|reflexivity]. Qed.

Lemma toolbar_json (w : widgets) (s : state) (h : list Message) :
  chat s = Some h -> download_json_clicked w = true ->
  exists pre,
    toolbar w s
    = (Return tt,
       set_screen (pre ++ [DownloadButton "Save Chat (.json)" (export_json h)
                             "chat_history.json" "application/json"]) s) /\
    exists txt, pre = screen s ++ txt.
Proof.
  intros Hchat Hj. unfold toolbar, bind, session_chat, st_show, modify, ret.
  rewrite Hj. destruct (download_txt_clicked w); cbn [chat set_screen screen];
    rewrite Hchat; cbn [chat set_screen screen]; rewrite ?Hchat;
    eexists; (split; [reflexivity|]); eexists; unfold append;
    try reflexivity.
  symmetry. apply app_nil_r.
Qed.

Lemma idle_script_eq (ext : external) (w : widgets) (s : state) :
  send_clicked w = false ->
  script ext w s = toolbar w (snd (prelude w s)).
Proof.
  intros Hc. destruct (prelude_initialises w s) as (s1 & Hp & _).
  unfold script, bind, send_handler. rewrite Hp, Hc. cbn [snd].
  unfold ret. now destruct (toolbar w s1) as [[] ?].
Qed.

(** X22.  The JSON download offered by the toolbar parses back to the chat, which
    the download leaves alone. *)
Theorem json_download_reads_back (ext : external) (w : widgets) (s : state) :
  send_clicked w = false -> download_json_clicked w = true ->
  exists s' shown js,
    script ext w s = (Return tt, s') /\
    store s' = store_entering w s /\
    screen s'
    = shown ++ [DownloadButton "Save Chat (.json)" js "chat_history.json"
                  "application/json"] /\
    parse_export js = Some (store s').
Proof.
  intros Hc Hj. rewrite idle_script_eq by assumption.
  destruct (prelude_initialises w s) as (s1 & Hp & Hchat & _).
  rewrite Hp. cbn [snd].
  destruct (@toolbar_json w s1 (store_entering w s) Hchat Hj) as (pre & Htb & _).
  rewrite Htb. do 3 eexists. split; [reflexivity|].
  assert (Hst : store (set_screen
                  (pre ++ [DownloadButton "Save Chat (.json)"
                             (export_json (store_entering w s))
                             "chat_history.json" "application/json"]) s1)
                = store_entering w s).
  { unfold store. cbn [chat set_screen]. now rewrite Hchat. }
  split; [exact Hst|]. split; [reflexivity|].
  rewrite Hst. unfold parse_export, export_json. rewrite loads_dumps_chat.
  apply records_of_messages.
Qed.







(** ** [_encode_download_bytes] *)

Lemma b64_index_char (i : N) :
  (i < 64)%N ->
  b64_index (b64_char i) = Some i /\ Ascii.eqb (b64_char i) "=" = false.
Proof.
  intros Hi. rewrite <- (Nnat.N2Nat.id i). assert (Hn : N.to_nat i < 64) by lia.
  revert Hn. generalize (N.to_nat i). clear i Hi. intros n Hn.
  do 64 (destruct n as [|n]; [split; reflexivity|]). lia.
Qed.

Lemma b64_first (x : N) : (x <= 255 -> x / 4 < 64 /\ x mod 4 * 16 < 64)%N.
Proof. intros Hx. zify. Z.to_euclidean_division_equations. lia. Qed.

Ltac euclid := zify; Z.to_euclidean_division_equations; lia.

Lemma b64_one (x : N) : (x <= 255 -> x / 4 * 4 + (x mod 4 * 16) / 16 = x)%N.
Proof. intros Hx. euclid. Qed.

Lemma b64_second (x y : N) :
  (x <= 255 -> y <= 255 ->
   x mod 4 * 16 + y / 16 < 64 /\
   x / 4 * 4 + (x mod 4 * 16 + y / 16) / 16 = x)%N.
Proof.
  intros Hx Hy.
  assert (Ha : (x mod 4 < 4)%N) by (apply N.mod_lt; discriminate).
  assert (Hb : (y / 16 < 16)%N) by (apply N.Div0.div_lt_upper_bound; lia).
  pose proof (N.div_mod x 4 ltac:(discriminate)) as Hdx.
  generalize dependent (x mod 4)%N. generalize dependent (x / 4)%N.
  generalize dependent (y / 16)%N. intros b Hb q a Ha Hdx. split; euclid.
Qed.

Lemma b64_third (x y s : N) :
  (y <= 255 -> s < 4 ->
   y mod 16 * 4 + s < 64 /\
   (x mod 4 * 16 + y / 16) mod 16 * 16 + (y mod 16 * 4 + s) / 4 = y)%N.
Proof.
  intros Hy Hs.
  assert (Ha : (y mod 16 < 16)%N) by (apply N.mod_lt; discriminate).
  assert (Hb : (y / 16 < 16)%N) by (apply N.Div0.div_lt_upper_bound; lia).
  pose proof (N.div_mod y 16 ltac:(discriminate)) as Hdy.
  generalize dependent (y mod 16)%N. generalize dependent (y / 16)%N.
  generalize (x mod 4)%N. intros c b Hb a Ha Hdy. split; euclid.
Qed.

Lemma b64_fourth (y z : N) :
  (z <= 255 ->
   z / 64 < 4 /\ z mod 64 < 64 /\
   (y mod 16 * 4 + z / 64) mod 4 * 64 + z mod 64 = z)%N.
Proof.
  intros Hz.
  assert (Ha : (z / 64 < 4)%N) by (apply N.Div0.div_lt_upper_bound; lia).
  assert (Hb : (z mod 64 < 64)%N) by (apply N.mod_lt; discriminate).
  pose proof (N.div_mod z 64 ltac:(discriminate)) as Hdz.
  generalize dependent (z mod 64)%N. generalize dependent (z / 64)%N.
  generalize (y mod 16)%N. intros c a Ha b Hb Hdz. repeat split; try lia. euclid.
Qed.

Lemma b64_index_of_char (i : N) : (i < 64)%N -> b64_index (b64_char i) = Some i.
Proof. intros H. now apply b64_index_char. Qed.

Lemma b64_char_not_pad (i : N) : (i < 64)%N -> Ascii.eqb (b64_char i) "=" = false.
Proof. intros H. now apply b64_index_char. Qed.

Lemma b64_round_trip_upto (n : nat) :
  forall data, List.length data <= n -> b64decode (b64encode data) = Some data.
Proof.
  induction n as [|n IH]; intros data Hn.
  - destruct data; [reflexivity|cbn in Hn; lia].
  - destruct data as [|a [|b [|c rest]]]; [reflexivity| | |].
    + pose proof (Byte.to_N_bounded a) as Ha.
      destruct (b64_first Ha) as (H1 & H2).
      cbn [b64encode]. cbv zeta. cbn [b64decode].
      rewrite (b64_index_of_char H1), (b64_index_of_char H2).
      unfold byte_of. rewrite (b64_one Ha), Byte.of_to_N. reflexivity.
    + pose proof (Byte.to_N_bounded a) as Ha. pose proof (Byte.to_N_bounded b) as Hb.
      destruct (b64_first Ha) as (H1 & _).
      destruct (b64_second Ha Hb) as (H2 & E1).
      destruct (@b64_third (Byte.to_N a) (Byte.to_N b) 0%N Hb ltac:(lia)) as (H3 & E2).
      rewrite N.add_0_r in H3, E2.
      cbn [b64encode]. cbv zeta. cbn [b64decode].
      rewrite (b64_index_of_char H1), (b64_index_of_char H2).
      unfold byte_of. rewrite E1, Byte.of_to_N.
      rewrite (b64_char_not_pad H3), (b64_index_of_char H3), E2, Byte.of_to_N.
      reflexivity.
    + pose proof (Byte.to_N_bounded a) as Ha. pose proof (Byte.to_N_bounded b) as Hb.
      pose proof (Byte.to_N_bounded c) as Hc.
      destruct (b64_first Ha) as (H1 & _).
      destruct (b64_second Ha Hb) as (H2 & E1).
      destruct (@b64_fourth (Byte.to_N b) (Byte.to_N c) Hc) as (Hs & H4 & E3).
      destruct (@b64_third (Byte.to_N a) (Byte.to_N b) (Byte.to_N c / 64)%N Hb Hs)
        as (H3 & E2).
      cbn [b64encode]. cbv zeta. cbn [b64decode].
      rewrite (b64_index_of_char H1), (b64_index_of_char H2).
      unfold byte_of. rewrite E1, Byte.of_to_N.
      rewrite (b64_char_not_pad H3), (b64_index_of_char H3), E2, Byte.of_to_N.
      rewrite (b64_char_not_pad H4), (b64_index_of_char H4), E3, Byte.of_to_N.
      rewrite IH by (cbn in Hn; lia). reflexivity.
Qed.

Lemma length_b64encode_upto (n : nat) :
  forall data, List.length data <= n ->
    String.length (b64encode data) = 4 * ((List.length data + 2) / 3).
Proof.
  induction n as [|n IH]; intros data Hn.
  - destruct data; [reflexivity|cbn in Hn; lia].
  - destruct data as [|a [|b [|c rest]]]; try reflexivity.
    cbn [b64encode]. cbv zeta. cbn [String.length List.length].
    rewrite IH by (cbn in Hn; lia).
    replace (S (S (S (List.length rest))) + 2) with ((List.length rest + 2) + 1 * 3) by lia.
    rewrite Nat.div_add by discriminate. lia.
Qed.

(** X24.  The payload of the data URI is the base64 text of the bytes: it
    decodes back to them and has four characters for every three bytes,
    rounded up. *)
Theorem download_uri_round_trip (name : string) (data : list byte) :
  exists payload,
    data_uri_payload (_encode_download_bytes name data) = Some payload /\
    b64decode payload = Some data /\
    String.length payload = 4 * ((List.length data + 2) / 3).
Proof.
  exists (b64encode data). split; [reflexivity|]. split.
  - now apply (@b64_round_trip_upto (List.length data)).
  - now apply (@length_b64encode_upto (List.length data)).
Qed.

(** ** Rendering and speech *)

Lemma strftime_not_empty (d : datetime) : truthy (strftime d) = true.
Proof. reflexivity. Qed.

(** X25.  The two turns of a send render as a user bubble and a bot bubble, each
    with its time. *)
Theorem rendered_turns (ext : external) (w : widgets) (s : state) :
  chat s <> None -> send_clicked w = true -> sendable w ->
  exists u a s',
    send_handler ext w s = (Rerun, s') /\
    chat s' = Some (store s ++ [u; a]) /\
    map _render_message (store s')
    = map _render_message (store s)
      ++ [("<div class='bubble user'>" ++ content u
           ++ "<div class='small'>" ++ time u ++ "</div>" ++ "</div>")%string;
          ("<div class='bubble bot'>" ++ content a
           ++ "<div class='small'>" ++ time a ++ "</div>" ++ "</div>")%string].
Proof.
  intros Hh Hc Hs.
  destruct (@accepted_send_appends ext w s Hh Hc Hs) as (u & a & s' & Hrun & Hchat & Hu & Ha).
  exists u, a, s'. split; [exact Hrun|]. split; [exact Hchat|].
  unfold store at 1. rewrite Hchat, map_app. f_equal.
  subst u a. unfold _render_message. cbn [map role time content user_turn assistant_turn].
  rewrite !strftime_not_empty. cbn [String.eqb Ascii.eqb Bool.eqb].
  now rewrite !string_app_assoc.
Qed.

Lemma last_assistant_after_pair (h : list Message) (u a : Message) :
  role a = "assistant" -> last_assistant (h ++ [u; a]) = Some a.
Proof.
  intros Ha. unfold last_assistant. rewrite rev_app_distr. cbn [rev app find].
  now rewrite Ha.
Qed.

(** X26.  The reply read aloud is the one just given: audio when the synthesis
    gives bytes, the notice when it fails or gives none, nothing without
    the toggle or without gTTS. *)
Theorem latest_reply_is_read_aloud (ext : external) (w : widgets) (s : state)
    (gTTS : string -> exn + list byte) :
  chat s <> None -> send_clicked w = true -> sendable w ->
  exists u a s',
    send_handler ext w s = (Rerun, s') /\
    chat s' = Some (store s ++ [u; a]) /\
    last_assistant (store s') = Some a /\
    read_last_reply true gTTS true (store s')
    = Some match gTTS (content a) with
           | inr (b :: rest) => Audio (b :: rest)
           | _ => Info "Could not synthesize speech (gTTS unavailable or failed)."
           end /\
    read_last_reply false gTTS true (store s') = None /\
    read_last_reply true gTTS false (store s') = None.
Proof.
  intros Hh Hc Hs.
  destruct (@accepted_send_appends ext w s Hh Hc Hs) as (u & a & s' & Hrun & Hchat & Hu & Ha).
  exists u, a, s'. split; [exact Hrun|]. split; [exact Hchat|].
  assert (Hrole : role a = "assistant") by (now subst a).
  unfold store at 1 2 3 4. rewrite Hchat.
  assert (Hlast := @last_assistant_after_pair (store s) u a Hrole).
  split; [exact Hlast|].
  assert (Hne : truthy (store s ++ [u; a]) = true) by (now destruct (store s)).
  unfold read_last_reply, _tts_to_bytes. rewrite Hne, Hlast. cbn [andb negb].
  repeat split. destruct (gTTS (content a)) as [e|[|b rest]]; reflexivity.
Qed.

(** ** The theorems above, at the concrete session *)

Lemma empty_key_counts_as_missing_witness :
  run_model Demo.world_empty_key "hi" [] None Demo.fresh
  = (Raise missing_key_error, Demo.fresh).
Proof.
  apply (@empty_key_counts_as_missing Demo.world_empty_key "hi" [] None Demo.fresh).
  reflexivity.
Defined.

Lemma request_carries_settings_witness :
  exists req,
    calls (snd (run_model Demo.world "hi" [] None Demo.fresh)) = calls Demo.fresh ++ [req] /\
    req_api_key req = Some "secret".
Proof.
  destruct (@request_carries_settings Demo.world "hi" [] None Demo.fresh
              "secret" "You are a helpful, concise assistant.")
    as (req & H1 & H2 & _); [reflexivity|discriminate|reflexivity|].
  exists req. split; assumption.
Defined.

Lemma answer_becomes_assistant_turn_witness :
  exists a s',
    send_handler Demo.world (Demo.compose "hi" [] None None) Demo.fresh = (Rerun, s') /\
    content a = "Hello! How can I help?".
Proof.
  destruct (@answer_becomes_assistant_turn Demo.world (Demo.compose "hi" [] None None)
              Demo.fresh "secret" "You are a helpful, concise assistant." Demo.greeting)
    as (u & a & s' & H1 & _ & _ & H2);
    [discriminate|reflexivity|left; discriminate|reflexivity|discriminate
    |reflexivity|reflexivity|intros e He; discriminate He|].
  exists a, s'. split; assumption.
Defined.

Lemma reply_read_error_shown_in_chat_witness :
  exists a s',
    send_handler (Demo.world_answering Demo.blocked_reply)
      (Demo.compose "hi" [] None None) Demo.fresh = (Rerun, s') /\
    content a
    = "Error: response.text requires the response to contain a valid Part, but none were returned".
Proof.
  destruct (@reply_read_error_shown_in_chat (Demo.world_answering Demo.blocked_reply)
              (Demo.compose "hi" [] None None) Demo.fresh
              "secret" "You are a helpful, concise assistant." Demo.blocked_reply
              (ValueError
                 "response.text requires the response to contain a valid Part, but none were returned"))
    as (u & a & s' & H1 & _ & _ & H2);
    [discriminate|reflexivity|left; discriminate|reflexivity|discriminate
    |reflexivity|reflexivity|reflexivity|discriminate|].
  exists a, s'. split; assumption.
Defined.

Lemma provider_error_shown_in_chat_witness :
  exists a s',
    send_handler Demo.world_failing (Demo.compose "hi" [] None None) Demo.fresh
    = (Rerun, s') /\
    content a = "Error: 429 quota exceeded".
Proof.
  destruct (@provider_error_shown_in_chat Demo.world_failing
              (Demo.compose "hi" [] None None) Demo.fresh
              "secret" "You are a helpful, concise assistant." Demo.quota_exceeded)
    as (u & a & s' & H1 & _ & H2 & _);
    [discriminate|reflexivity|left; discriminate|reflexivity|discriminate
    |reflexivity|reflexivity|].
  exists a, s'. split; assumption.
Defined.

Lemma send_without_key_witness :
  exists s',
    send_handler Demo.world_without_key (Demo.compose "hi" [] None None) Demo.fresh
    = (Rerun, s') /\
    calls s' = calls Demo.fresh.
Proof.
  destruct (@send_without_key Demo.world_without_key
              (Demo.compose "hi" [] None None) Demo.fresh)
    as (u & a & s' & H1 & _ & _ & H2 & _);
    [discriminate|reflexivity|left; discriminate|reflexivity|].
  exists s'. split; assumption.
Defined.

Lemma no_send_no_cost_witness :
  calls (snd (send_handler Demo.world (Demo.compose "" [] None None) Demo.fresh))
  = calls Demo.fresh.
Proof.
  refine (proj1 (proj2 (@no_send_no_cost Demo.world (Demo.compose "" [] None None)
                          Demo.fresh _))).
  right. intros [H|[H|[H|H]]]; now apply H.
Defined.


Lemma attachments_not_retained_witness :
  exists u,
    role u = "user" /\
    nth_error (store (snd (send_handler Demo.world
                             (Demo.compose "hi" [Demo.photo] None None) Demo.fresh))) 0
    = Some u /\
    nth_error (store (snd (send_handler Demo.world
                             (Demo.compose "hi" [Demo.mic_clip] None None) Demo.fresh))) 0
    = Some u.
Proof.
  apply (@attachments_not_retained Demo.world
           (Demo.compose "hi" [Demo.photo] None None)
           (Demo.compose "hi" [Demo.mic_clip] None None) Demo.fresh);
    [discriminate|reflexivity|reflexivity|left; discriminate
    |reflexivity|reflexivity|reflexivity].
Defined.

Lemma blank_text_is_sent_witness :
  exists u s',
    send_handler Demo.world (Demo.compose " " [] None None) Demo.fresh = (Rerun, s') /\
    content u = "".
Proof.
  destruct (@blank_text_is_sent Demo.world (Demo.compose " " [] None None) Demo.fresh 0)
    as (u & a & s' & H1 & _ & _ & H2 & _);
    [discriminate|reflexivity|reflexivity|reflexivity|reflexivity|reflexivity|].
  exists u, s'. split; assumption.
Defined.

Lemma live_prompt_is_sent_witness :
  exists req,
    calls (snd (script Demo.world (Demo.compose "hi" [] None None) new_session))
    = calls new_session ++ [req] /\
    system_instruction (req_model req) = "You are a helpful, concise assistant.".
Proof.
  destruct (@live_prompt_is_sent Demo.world (Demo.compose "hi" [] None None)
              new_session "secret")
    as (req & H1 & H2 & _); [reflexivity|left; discriminate|reflexivity|discriminate|].
  exists req. split; assumption.
Defined.

Lemma stored_text_is_stripped_witness :
  exists s',
    send_handler Demo.world (Demo.compose " hi " [] None None) Demo.fresh = (Rerun, s').
Proof.
  destruct (@stored_text_is_stripped Demo.world (Demo.compose " hi " [] None None)
              Demo.fresh)
    as (u & a & s' & H1 & _); [discriminate|reflexivity|left; discriminate|].
  exists s'. exact H1.
Defined.

Lemma text_export_composes_witness :
  _format_history_for_download (two_turns ++ one_turn_two_lines)
  = (_format_history_for_download two_turns ++ nl
     ++ _format_history_for_download one_turn_two_lines)%string.
Proof.
  apply (@text_export_composes two_turns one_turn_two_lines); discriminate.
Defined.

Lemma text_export_after_send_witness :
  exists s',
    send_handler Demo.world (Demo.compose "hi" [] None None) Demo.fresh = (Rerun, s') /\
    _format_history_for_download (store s')
    = ("[2026-11-04 09:05:00] USER: hi" ++ nl
       ++ "[2026-11-04 09:05:01] ASSISTANT: Hello! How can I help?")%string.
Proof.
  destruct (@text_export_after_send Demo.world (Demo.compose "hi" [] None None) Demo.fresh)
    as (u & a & s' & H1 & _ & _); [discriminate|reflexivity|left; discriminate|].
  exists s'. split; [exact H1|].
  vm_compute in H1. injection H1 as <-. reflexivity.
Defined.

Lemma json_download_reads_back_witness :
  exists s' shown js,
    script Demo.world (Demo.idle false false true) Demo.fresh = (Return tt, s') /\
    store s' = store_entering (Demo.idle false false true) Demo.fresh /\
    screen s'
    = shown ++ [DownloadButton "Save Chat (.json)" js "chat_history.json"
                  "application/json"] /\
    parse_export js = Some (store s').
Proof.
  apply (@json_download_reads_back Demo.world (Demo.idle false false true) Demo.fresh);
    reflexivity.
Defined.


Lemma rendered_turns_witness :
  exists s',
    send_handler Demo.world (Demo.compose "hi" [] None None) Demo.fresh = (Rerun, s').
Proof.
  destruct (@rendered_turns Demo.world (Demo.compose "hi" [] None None) Demo.fresh)
    as (u & a & s' & H1 & _); [discriminate|reflexivity|left; discriminate|].
  exists s'. exact H1.
Defined.

Lemma latest_reply_is_read_aloud_witness :
  exists a s',
    send_handler Demo.world (Demo.compose "hi" [] None None) Demo.fresh = (Rerun, s') /\
    last_assistant (store s') = Some a /\
    read_last_reply true Demo.chime true (store s') = Some (Audio [x49; x44; x33]).
Proof.
  destruct (@latest_reply_is_read_aloud Demo.world (Demo.compose "hi" [] None None)
              Demo.fresh Demo.chime)
    as (u & a & s' & H1 & _ & H2 & H3 & _); [discriminate|reflexivity|left; discriminate|].
  exists a, s'. split; [exact H1|]. split; [exact H2|]. exact H3.
Defined.
